(** * pycket sessions: a shallow embedding of [pycket/session.py]

    The module [pycket.session] keeps, for every client, a dictionary of
    named values in a Redis data set.  The client is recognised by the
    secure cookie [PYCKET_ID]; the dictionary is pickled as a whole and
    stored under the session id, with an expiry of one day that is renewed
    by every write.

    The embedding follows the Python text method by method.  Everything the
    methods touch outside their own locals is a component of [world]: the
    cookies of the request and of the response, the application settings
    (dictionaries living in a heap, since the code updates them in place),
    the Redis client of the manager, the Redis key space, and the number of
    identifiers drawn from [uuid4] so far. *)

From stdpp Require Import gmap strings list fin_maps pretty.
From Stdlib Require Import ZArith.

Local Open Scope Z_scope.

(** ** Python values *)

(** The values a session or a settings dictionary can hold.  All of them
    can be pickled. *)
#[warnings="-register-all"]
Inductive pyval : Type :=
  | PyNone
  | PyBool (b : bool)
  | PyInt (n : Z)
  | PyStr (s : string)
  | PyList (items : list pyval).

(** A Python [dict] with string keys. *)
Abbreviation dict := (gmap string pyval).

(** The test [value is None]. *)
Definition is_None (v : pyval) : bool :=
  match v with
  | PyNone => true
  | _ => false
  end.

(** [d.keys()]: in Python 2 a list of the keys. *)
Definition dict_keys (d : dict) : list string := (map_to_list d).*1.

(** [d.get(k, default)]. *)
Definition dict_get (d : dict) (k : string) (default : pyval) : pyval :=
  match d !! k with
  | Some v => v
  | None => default
  end.

(** [k in d]. *)
Definition dict_contains (d : dict) (k : string) : bool :=
  match d !! k with
  | Some _ => true
  | None => false
  end.

(** ** Exceptions *)

Inductive exn : Type :=
  | KeyError (arg : string)
  | UnpicklingError.

Inductive result (A : Type) : Type :=
  | Ok (a : A)
  | Raise (e : exn).
Arguments Ok {A} a.
Arguments Raise {A} e.

(** [del d[k]] raises [KeyError] when the key is missing. *)
Definition dict_delitem (d : dict) (k : string) : result dict :=
  match d !! k with
  | Some _ => Ok (delete k d)
  | None => Raise (KeyError k)
  end.

(** ** What the module imports

    [pickle] and [uuid4] are library code.  The pickled form is kept
    abstract; [pickle_loads] fails on a string that is not a pickle.
    [uuid4 n] is the text of the [n]-th identifier the generator hands
    out. *)
Class Externals : Type := {
  raw : Type;
  pickle_dumps : dict → raw;
  pickle_loads : raw → option dict;
  uuid4 : nat → string;
}.

(** ** The world *)

(** Dictionaries that are shared and updated in place live in a heap. *)
Abbreviation loc := positive.

Section World.
Context `{Externals}.

(** A Redis entry: the stored string and the time to live in seconds,
    if one is set. *)
Record record : Type := Record_ { value : raw; ttl : option Z }.

(** The commands the module sends to Redis. *)
Inductive redis_cmd : Type :=
  | GET (name : string)
  | SET (name : string) (v : raw)
  | EXPIRE (name : string) (time : Z).

(** [redis.Redis] called with keyword arguments: the client remembers
    how it was made. *)
Record redis_client : Type := Redis { connection_kwargs : dict }.

Record world : Type := World {
  (** the valid secure cookies the request came with *)
  request_cookies : gmap string string;
  (** the secure cookies set on the response, with their attributes *)
  response_cookies : gmap string (string * dict);
  (** [handler.settings]: the application settings *)
  settings : gmap string loc;
  heap : gmap loc dict;
  (** [self.dataset] of the manager *)
  dataset : option redis_client;
  (** the key space of the Redis data set, and the commands it received *)
  server : gmap string record;
  redis_log : list redis_cmd;
  (** how many identifiers [uuid4] has produced *)
  uuids_drawn : nat;
}.

Definition with_response_cookies (c : gmap string (string * dict)) (w : world) : world :=
  World (request_cookies w) c (settings w) (heap w) (dataset w)
        (server w) (redis_log w) (uuids_drawn w).

Definition with_heap (h : gmap loc dict) (w : world) : world :=
  World (request_cookies w) (response_cookies w) (settings w) h (dataset w)
        (server w) (redis_log w) (uuids_drawn w).

Definition with_dataset (d : option redis_client) (w : world) : world :=
  World (request_cookies w) (response_cookies w) (settings w) (heap w) d
        (server w) (redis_log w) (uuids_drawn w).

Definition with_server (s : gmap string record) (w : world) : world :=
  World (request_cookies w) (response_cookies w) (settings w) (heap w) (dataset w)
        s (redis_log w) (uuids_drawn w).

Definition with_redis_log (l : list redis_cmd) (w : world) : world :=
  World (request_cookies w) (response_cookies w) (settings w) (heap w) (dataset w)
        (server w) l (uuids_drawn w).

Definition with_uuids_drawn (n : nat) (w : world) : world :=
  World (request_cookies w) (response_cookies w) (settings w) (heap w) (dataset w)
        (server w) (redis_log w) n.

(** ** Computations: state and exceptions *)

Definition M (A : Type) : Type := world → result A * world.

Global Instance M_ret : MRet M := λ A a w, (Ok a, w).

Global Instance M_bind : MBind M := λ A B f m w,
  match m w with
  | (Ok a, w') => f a w'
  | (Raise e, w') => (Raise e, w')
  end.

Definition raise {A : Type} (e : exn) : M A := λ w, (Raise e, w).

Definition gets {A : Type} (f : world → A) : M A := λ w, (Ok (f w), w).

Definition modify (f : world → world) : M unit := λ w, (Ok tt, f w).

(** A computation on a local value that may raise. *)
Definition lift {A : Type} (r : result A) : M A := λ w, (r, w).

(** [for x in xs: body(x)]. *)
Fixpoint for_each {A : Type} (xs : list A) (body : A → M unit) : M unit :=
  match xs with
  | [] => mret tt
  | x :: xs' => body x;; for_each xs' body
  end.

(** ** Shared dictionaries *)

(** A new dictionary object, as made by [{}] or [copy]. *)
Definition alloc (d : dict) : M loc := λ w,
  let l := fresh (dom (heap w)) in (Ok l, with_heap (<[l := d]> (heap w)) w).

Definition deref (l : loc) : M dict := gets (λ w, default ∅ (heap w !! l)).

Definition store (l : loc) (d : dict) : M unit :=
  modify (λ w, with_heap (<[l := d]> (heap w)) w).

(** [d[k] = v], in place. *)
Definition obj_setitem (l : loc) (k : string) (v : pyval) : M unit :=
  d ← deref l; store l (<[k := v]> d).

(** [d.setdefault(k, v)], in place. *)
Definition obj_setdefault (l : loc) (k : string) (v : pyval) : M unit :=
  d ← deref l;
  match d !! k with
  | Some _ => mret tt
  | None => store l (<[k := v]> d)
  end.

(** [del d[k]], in place. *)
Definition obj_delitem (l : loc) (k : string) : M unit :=
  d ← deref l; d' ← lift (dict_delitem d k); store l d'.

(** [copy(d)]: a new object with the same items. *)
Definition copy (l : loc) : M loc := d ← deref l; alloc d.

(** [handler.settings.get(key, {})]: the configured dictionary itself,
    or a new empty one that the settings do not know. *)
Definition settings_get (key : string) : M loc :=
  configured ← gets (λ w, settings w !! key);
  match configured with
  | Some l => mret l
  | None => alloc ∅
  end.

(** ** The request handler *)

(** [handler.get_secure_cookie(name)] reads the cookies of the request;
    a cookie that is missing or does not verify gives [None].  What
    [set_secure_cookie] puts on the response is not among them. *)
Definition get_secure_cookie (name : string) : M (option string) :=
  gets (λ w, request_cookies w !! name).

(** [handler.set_secure_cookie(name, value)] with keyword arguments
    [kwargs] adds a cookie to the response. *)
Definition set_secure_cookie (name value : string) (kwargs : dict) : M unit :=
  modify (λ w, with_response_cookies (<[name := (value, kwargs)]> (response_cookies w)) w).

(** [str(uuid4())]. *)
Definition str_uuid4 : M string := λ w,
  (Ok (uuid4 (uuids_drawn w)), with_uuids_drawn (S (uuids_drawn w)) w).

(** ** Redis *)

Definition log (c : redis_cmd) : M unit :=
  modify (λ w, with_redis_log (redis_log w ++ [c]) w).

(** [GET name]. *)
Definition redis_get (name : string) : M (option raw) :=
  log (GET name);; gets (λ w, value <$> server w !! name).

(** [SET name v]: the new entry has no time to live. *)
Definition redis_set (name : string) (v : raw) : M unit :=
  log (SET name v);;
  modify (λ w, with_server (<[name := Record_ v None]> (server w)) w).

(** [EXPIRE name time]: a time that is not positive deletes the key. *)
Definition redis_expire (name : string) (time : Z) : M unit :=
  log (EXPIRE name time);;
  modify (λ w,
    with_server
      (if decide (time ≤ 0) then delete name (server w)
       else alter (λ r, Record_ (value r) (Some time)) name (server w)) w).
End World.

(** ** [pycket.notification]

    Modelled from the spec: the module [pycket.notification] is imported by
    [__clean_redis_settings] for one constant, the name of the setting that
    selects the data set of the notifications, ['db_notifications']. *)
Module NotificationManager.
Definition DB_SETTING : string := "db_notifications".
End NotificationManager.

(** ** [class SessionManager] *)
Module SessionManager.
Section Methods.
Context `{Externals}.

Definition SESSION_ID_NAME : string := "PYCKET_ID".
Definition DB : Z := 0.
Definition EXPIRE_SECONDS : Z := 24 * 60 * 60.
Definition DB_SETTING : string := "db_sessions".

Definition __cookie_settings : M loc :=
  cookie_settings ← settings_get "pycket_cookies";
  obj_setdefault cookie_settings "expires" PyNone;;
  obj_setdefault cookie_settings "expires_days" PyNone;;
  mret cookie_settings.

Definition __create_session_id : M string :=
  session_id ← str_uuid4;
  cookie_settings ← __cookie_settings;
  kwargs ← deref cookie_settings;
  set_secure_cookie SESSION_ID_NAME session_id kwargs;;
  mret session_id.

Definition __get_session_id : M string :=
  session_id ← get_secure_cookie SESSION_ID_NAME;
  match session_id with
  | None => __create_session_id
  | Some session_id => mret session_id
  end.

Definition __clean_redis_settings (redis_settings : loc) : M loc :=
  redis_settings ← copy redis_settings;
  for_each [DB_SETTING; NotificationManager.DB_SETTING] (λ custom_db_name,
    d ← deref redis_settings;
    if decide (custom_db_name ∈ dict_keys d)
    then obj_delitem redis_settings custom_db_name
    else mret tt);;
  mret redis_settings.

Definition __redis_settings : M loc :=
  redis_settings ← settings_get "pycket_redis";
  d ← deref redis_settings;
  obj_setitem redis_settings "db" (dict_get d DB_SETTING (PyInt DB));;
  __clean_redis_settings redis_settings.

Definition __setup_dataset : M unit :=
  current ← gets dataset;
  match current with
  | None =>
      redis_settings ← __redis_settings;
      kwargs ← deref redis_settings;
      modify (with_dataset (Some (Redis kwargs)))
  | Some _ => mret tt
  end.

Definition __to_dict (raw_session : option raw) : M dict :=
  match raw_session with
  | None => mret ∅
  | Some raw_session =>
      match pickle_loads raw_session with
      | Some session => mret session
      | None => raise UnpicklingError
      end
  end.

Definition __get_session_from_db : M dict :=
  session_id ← __get_session_id;
  __setup_dataset;;
  raw_session ← redis_get session_id;
  __to_dict raw_session.

Definition __set_session_in_db (session : dict) : M unit :=
  session_id ← __get_session_id;
  let pickled_session := pickle_dumps session in
  __setup_dataset;;
  redis_set session_id pickled_session;;
  redis_expire session_id EXPIRE_SECONDS.

(** The callback changes the session in place and may raise; it is
    given here as the function from the session before to the session
    after. *)
Definition __change_session (callback : dict → result dict) : M unit :=
  session ← __get_session_from_db;
  session ← lift (callback session);
  __set_session_in_db session.

(** The local function [change] of [set]. *)
Definition set_change (name : string) (value : pyval) (session : dict) : result dict :=
  Ok (<[name := value]> session).

Definition set (name : string) (value : pyval) : M unit :=
  __change_session (set_change name value).

Definition get (name : string) (default : pyval) : M pyval :=
  session ← __get_session_from_db;
  mret (dict_get session name default).

(** [for name in names_in_common: del session[name]]. *)
Fixpoint del_each (names_in_common : list string) (session : dict) : result dict :=
  match names_in_common with
  | [] => Ok session
  | name :: rest =>
      match dict_delitem session name with
      | Ok session => del_each rest session
      | Raise e => Raise e
      end
  end.

(** The local function [change] of [delete]. *)
Definition delete_change (names : list string) (session : dict) : result dict :=
  let keys := dict_keys session in
  let names_in_common := filter (λ name, name ∈ keys) names in
  del_each names_in_common session.

Definition delete (names : list string) : M unit :=
  __change_session (delete_change names).

Definition __delitem__ : list string → M unit := delete.

Definition keys : M (list string) :=
  session ← __get_session_from_db;
  mret (dict_keys session).

Definition __getitem__ (key : string) : M pyval :=
  value ← get key PyNone;
  if is_None value
  then raise (KeyError (key +:+ " not found in dataset"))
  else mret value.

Definition __setitem__ (key : string) (value : pyval) : M unit :=
  set key value.

Definition __contains__ (key : string) : M bool :=
  session ← __get_session_from_db;
  mret (dict_contains session key).
End Methods.
End SessionManager.

(** ** A handler at work

    What a request handler does with its session: a series of calls on the
    one manager that [SessionMixin.session] keeps for it.  An exception of
    one call is caught by the caller, who goes on with the next. *)
Section Requests.
Context `{Externals}.

Inductive op : Type :=
  | Get (name : string) (default : pyval)
  | Set_ (name : string) (value : pyval)
  | Delete (names : list string)
  | Keys
  | Getitem (key : string)
  | Setitem (key : string) (value : pyval)
  | Contains (key : string).

Inductive answer : Type :=
  | Value (v : pyval)
  | Names (l : list string)
  | Truth (b : bool)
  | Done.

Definition returning {A : Type} (f : A → answer) (m : M A) : M answer :=
  a ← m; mret (f a).

Definition call (o : op) : M answer :=
  match o with
  | Get name default => returning Value (SessionManager.get name default)
  | Set_ name value => returning (λ _, Done) (SessionManager.set name value)
  | Delete names => returning (λ _, Done) (SessionManager.delete names)
  | Keys => returning Names SessionManager.keys
  | Getitem key => returning Value (SessionManager.__getitem__ key)
  | Setitem key value => returning (λ _, Done) (SessionManager.__setitem__ key value)
  | Contains key => returning Truth (SessionManager.__contains__ key)
  end.

Fixpoint calls (os : list op) (w : world) : list (result answer) * world :=
  match os with
  | [] => ([], w)
  | o :: os' =>
      let '(r, w1) := call o w in
      let '(rs, w2) := calls os' w1 in
      (r :: rs, w2)
  end.

(** The change a call makes to the session in memory, if it is one of
    the calls that write. *)
Definition change_of (o : op) : option (dict → result dict) :=
  match o with
  | Set_ name value | Setitem name value => Some (SessionManager.set_change name value)
  | Delete names => Some (SessionManager.delete_change names)
  | _ => None
  end.

(** The calls that only read. *)
Definition reads (o : op) : bool :=
  match o with
  | Get _ _ | Keys | Contains _ => true
  | _ => false
  end.

(** What a call that reads answers on an empty session. *)
Definition on_empty (o : op) : answer :=
  match o with
  | Get _ default => Value default
  | Keys => Names []
  | Contains _ => Truth false
  | _ => Done
  end.

(** The key a Redis command is about. *)
Definition cmd_name (c : redis_cmd) : string :=
  match c with
  | GET name | SET name _ | EXPIRE name _ => name
  end.

Definition is_GET (c : redis_cmd) : bool :=
  match c with
  | GET _ => true
  | _ => false
  end.

(** A later request of a client: a new handler with its own manager,
    the cookies the client sends, and nothing yet on the response.
    The application settings and the Redis server stay. *)
Definition new_request (cookies : gmap string string) (w : world) : world :=
  World cookies ∅ (settings w) (heap w) None
        (server w) (redis_log w) (uuids_drawn w).

(** The session stored for an identifier, as [__to_dict] reads it:
    empty when there is no entry, nothing when the entry does not
    unpickle. *)
Definition stored_session (w : world) (session_id : string) : option dict :=
  match server w !! session_id with
  | None => Some ∅
  | Some r => pickle_loads (value r)
  end.
End Requests.

(** ** Sample externals and worlds *)

(** A pickle that keeps the dictionary as it is, and identifiers numbered
    in the order they are drawn. *)
Definition sample_externals : Externals :=
  {| raw := dict;
     pickle_dumps := λ d, d;
     pickle_loads := λ r, Some r;
     uuid4 := λ n, "uuid-" +:+ pretty n |}.

(** A first request of a new client: no cookie, no settings, nothing in
    Redis. *)
Definition blank_world : @world sample_externals :=
  World ∅ ∅ ∅ ∅ None ∅ [] 0.

(** The cookies of a client that has a session. *)
Definition session_cookie (session_id : string) : gmap string string :=
  {[SessionManager.SESSION_ID_NAME := session_id]}.

(** A request of a known client. *)
Definition known_client (session_id : string) (session : dict) : @world sample_externals :=
  World (session_cookie session_id) ∅ ∅ ∅ None
        {[session_id := @Record_ sample_externals session (Some 100)]} [] 0.

(** An application that configures both dictionaries. *)
Definition configured_world (cookies : gmap string string) : @world sample_externals :=
  World cookies ∅
        {["pycket_cookies" := 1%positive; "pycket_redis" := 2%positive]}
        {[1%positive := {["path" := PyStr "/"]};
          2%positive := {["host" := PyStr "localhost"; "db_sessions" := PyInt 3;
                          "db_notifications" := PyInt 4]}]}
        None ∅ [] 0.

(** ** Words for the properties *)

Section Vocabulary.
Context `{Externals}.

(** A relation between the world before and the world after that every
    run of [m] satisfies, whatever it returns or raises. *)
Definition respects (R : relation world) {A : Type} (m : M A) : Prop :=
  ∀ w, R w (m w).2.

(** The part of the world a projection shows stays as it is. *)
Definition keeps {X : Type} (f : world → X) : relation world :=
  λ w w', f w' = f w.

(** The identifier the next call of [__get_session_id] gives. *)
Definition resolved (w : world) : string :=
  match request_cookies w !! SessionManager.SESSION_ID_NAME with
  | Some session_id => session_id
  | None => uuid4 (uuids_drawn w)
  end.

(** A settings dictionary as configured, empty when it is not. *)
Definition configured (key : string) (w : world) : dict :=
  match settings w !! key with
  | Some l => default ∅ (heap w !! l)
  | None => ∅
  end.

(** What a call of [__get_session_id] does to the response and to the
    generator: nothing for a client that sent the cookie, one new
    identifier and its cookie otherwise. *)
Definition resolution (w w' : world) : Prop :=
  match request_cookies w !! SessionManager.SESSION_ID_NAME with
  | Some _ =>
      uuids_drawn w' = uuids_drawn w ∧ response_cookies w' = response_cookies w
  | None =>
      uuids_drawn w' = S (uuids_drawn w) ∧
      ∃ kwargs, response_cookies w' !! SessionManager.SESSION_ID_NAME
                = Some (uuid4 (uuids_drawn w), kwargs)
  end.

(** The keyword arguments [__redis_settings] makes of a configured
    dictionary. *)
Definition connection_args (cfg : dict) : dict :=
  delete NotificationManager.DB_SETTING
    (delete SessionManager.DB_SETTING
       (<["db" := dict_get cfg SessionManager.DB_SETTING (PyInt SessionManager.DB)]> cfg)).

(** What [__get_session_from_db] returns or raises. *)
Definition loaded (w : world) : result dict :=
  match stored_session w (resolved w) with
  | Some session => Ok session
  | None => Raise UnpicklingError
  end.

(** What is left of a call once the session is loaded. *)
Definition after_load (o : op) (session : dict) (w : world) : result answer * world :=
  match change_of o with
  | Some change =>
      match change session with
      | Ok session' =>
          match SessionManager.__set_session_in_db session' w with
          | (Ok _, w') => (Ok Done, w')
          | (Raise e, w') => (Raise e, w')
          end
      | Raise e => (Raise e, w)
      end
  | None =>
      match o with
      | Get name default => (Ok (Value (dict_get session name default)), w)
      | Keys => (Ok (Names (dict_keys session)), w)
      | Contains key => (Ok (Truth (dict_contains session key)), w)
      | Getitem key =>
          let value := dict_get session key PyNone in
          if is_None value
          then (Raise (KeyError (key +:+ " not found in dataset")), w)
          else (Ok (Value value), w)
      | _ => (Ok Done, w)
      end
  end.

(** Every dictionary of the heap is still there, with every key it had
    and, but for ['db'], with the value the key had. *)
Definition updated_in_place (w w' : world) : Prop :=
  ∀ l d, heap w !! l = Some d →
    ∃ d', heap w' !! l = Some d' ∧
          ∀ k, is_Some (d !! k) →
               is_Some (d' !! k) ∧ (k ≠ "db" → d' !! k = d !! k).

(** The shared dictionary at [l] has the key [k]. *)
Definition has_key (l : loc) (k : string) (w : world) : Prop :=
  ∃ d, heap w !! l = Some d ∧ is_Some (d !! k).

(** A session without the names of a list. *)
Definition without (names : list string) (session : dict) : dict :=
  foldl (λ session name, delete name session) session names.

(** A session after a list of writes, the later ones on top. *)
Definition written (writes : list (string * pyval)) (session : dict) : dict :=
  foldl (λ session '(name, value), <[name := value]> session) session writes.
End Vocabulary.

(** * Properties *)

(** ** Dictionaries *)

Lemma elem_of_dict_keys (d : dict) (k : string) :
  k ∈ dict_keys d ↔ is_Some (d !! k).
Proof.
  unfold dict_keys. rewrite list_elem_of_fmap. split.
  - intros [[k' v] [-> Hin]]. apply elem_of_map_to_list in Hin. eauto.
  - intros [v Hv]. exists (k, v). split; [done | by apply elem_of_map_to_list].
Qed.

Lemma dict_keys_empty : dict_keys ∅ = [].
Proof. unfold dict_keys. by rewrite map_to_list_empty. Qed.

Lemma dict_delitem_present (d : dict) (k : string) :
  k ∈ dict_keys d → dict_delitem d k = Ok (delete k d).
Proof.
  intros [v Hv]%elem_of_dict_keys. unfold dict_delitem. by rewrite Hv.
Qed.

Lemma delete_absent (d : dict) (k : string) :
  k ∉ dict_keys d → delete k d = d.
Proof.
  intros Hk. apply delete_id. destruct (d !! k) eqn:E; [| done].
  exfalso. apply Hk, elem_of_dict_keys. eauto.
Qed.

(** ** Running computations *)

Section Run.
Context `{Externals}.

Lemma bind_Ok {A B : Type} (m : M A) (k : A → M B) (w w' : world) (a : A) :
  m w = (Ok a, w') → (m ≫= k) w = k a w'.
Proof. intros E. unfold mbind, M_bind. by rewrite E. Qed.

Lemma bind_Raise {A B : Type} (m : M A) (k : A → M B) (w w' : world) (e : exn) :
  m w = (Raise e, w') → (m ≫= k) w = (Raise e, w').
Proof. intros E. unfold mbind, M_bind. by rewrite E. Qed.


Section Relation.
Context (R : relation world) `{!PreOrder R}.

Lemma respects_ret {A : Type} (a : A) : respects R (mret a).
Proof. intros w. cbn. reflexivity. Qed.

Lemma respects_raise {A : Type} (e : exn) : respects R (raise (A:=A) e).
Proof. intros w. cbn. reflexivity. Qed.

Lemma respects_lift {A : Type} (r : result A) : respects R (lift r).
Proof. intros w. cbn. reflexivity. Qed.

Lemma respects_gets {A : Type} (f : world → A) : respects R (gets f).
Proof. intros w. cbn. reflexivity. Qed.

Lemma respects_modify (g : world → world) :
  (∀ w, R w (g w)) → respects R (modify g).
Proof. intros Hg w. apply Hg. Qed.

Lemma respects_alloc (d : dict) :
  (∀ w, R w (with_heap (<[fresh (dom (heap w)) := d]> (heap w)) w)) →
  respects R (alloc d).
Proof. intros Hg w. apply Hg. Qed.

Lemma respects_str_uuid4 :
  (∀ w, R w (with_uuids_drawn (S (uuids_drawn w)) w)) → respects R str_uuid4.
Proof. intros Hg w. apply Hg. Qed.

Lemma respects_bind {A B : Type} (m : M A) (k : A → M B) :
  respects R m → (∀ a, respects R (k a)) → respects R (m ≫= k).
Proof.
  intros Hm Hk w. unfold mbind, M_bind.
  specialize (Hm w). destruct (m w) as [[a | e] w1]; cbn in *; [| done].
  etrans; [exact Hm | apply Hk].
Qed.

Lemma respects_for_each {A : Type} (xs : list A) (body : A → M unit) :
  (∀ x, respects R (body x)) → respects R (for_each xs body).
Proof.
  intros Hb. induction xs as [| x xs IH]; cbn.
  - apply respects_ret.
  - apply respects_bind; [apply Hb | intros _; apply IH].
Qed.

Lemma respects_calls (os : list op) :
  (∀ o, respects R (call o)) → ∀ w, R w (calls os w).2.
Proof.
  intros Hc. induction os as [| o os IH]; intros w; cbn; [reflexivity |].
  specialize (Hc o w). destruct (call o w) as [r w1]; cbn in Hc.
  specialize (IH w1). destruct (calls os w1) as [rs w2]; cbn in *.
  etrans; eassumption.
Qed.
End Relation.


Global Instance keeps_preorder {X : Type} (f : world → X) : PreOrder (keeps f).
Proof. split; [by intros w | intros w1 w2 w3 H1 H2; unfold keeps in *; congruence]. Qed.
End Run.

(** Takes a goal [respects R m] apart along the text of [m], unfolding a
    method when nothing is known about it; [leaf] has to show that the
    single updates of the world are in [R]. *)
Ltac head_of t :=
  lazymatch t with
  | ?f _ => head_of f
  | _ => t
  end.

Ltac respects_with leaf :=
  repeat first
    [ assumption
    | match goal with
      | K : _ |- respects _ _ => simple apply K
      end
    | apply respects_ret; solve [tc_solve]
    | apply respects_raise; solve [tc_solve]
    | apply respects_lift; solve [tc_solve]
    | apply respects_gets; solve [tc_solve]
    | apply respects_bind; [solve [tc_solve] | | intros ?]
    | apply respects_for_each; [solve [tc_solve] | intros ?]
    | apply respects_modify; intros ?; solve [leaf]
    | apply respects_alloc; intros ?; solve [leaf]
    | apply respects_str_uuid4; intros ?; solve [leaf]
    | match goal with
      | |- respects _ (match ?x with _ => _ end) => destruct x
      | |- respects _ ?m => let h := head_of m in progress unfold h
      end ].

Ltac untouched := unfold keeps; reflexivity.

(** Brings the world after a run to the form [World _ ... _]. *)
Ltac wsimpl :=
  unfold with_response_cookies, with_heap, with_dataset, with_server,
    with_redis_log, with_uuids_drawn in *;
  cbn in *.

(** ** What the private methods do *)

Section Methods.
Context `{Externals}.



Lemma keeps_request_cookies (o : op) : respects (keeps request_cookies) (call o).
Proof. destruct o; respects_with untouched. Qed.

Lemma keeps_settings (o : op) : respects (keeps settings) (call o).
Proof. destruct o; respects_with untouched. Qed.

Lemma cookie_settings_runs (w : world) :
  ∃ l w', SessionManager.__cookie_settings w = (Ok l, w').
Proof.
  unfold SessionManager.__cookie_settings, settings_get, obj_setdefault,
    deref, store, gets, modify, alloc, mbind, M_bind, mret, M_ret.
  cbn. repeat case_match; simplify_eq; eauto.
Qed.

Lemma create_session_id_runs (w : world) :
  ∃ w' kwargs,
    SessionManager.__create_session_id w = (Ok (uuid4 (uuids_drawn w)), w') ∧
    uuids_drawn w' = S (uuids_drawn w) ∧
    response_cookies w' !! SessionManager.SESSION_ID_NAME
      = Some (uuid4 (uuids_drawn w), kwargs).
Proof.
  unfold SessionManager.__create_session_id.
  erewrite bind_Ok by reflexivity.
  set (w1 := with_uuids_drawn _ w).
  destruct (cookie_settings_runs w1) as (l & w2 & E).
  assert (uuids_drawn w2 = uuids_drawn w1) as Hn.
  { assert (respects (keeps uuids_drawn) SessionManager.__cookie_settings) as K
      by respects_with untouched.
    specialize (K w1). by rewrite E in K. }
  erewrite bind_Ok by exact E. cbn.
  eexists _, _. split; [reflexivity |]. cbn. split; [exact Hn |].
  apply lookup_insert_eq.
Qed.


Lemma get_session_id_runs (w : world) :
  ∃ w', SessionManager.__get_session_id w = (Ok (resolved w), w') ∧ resolution w w'.
Proof.
  unfold SessionManager.__get_session_id, resolved, resolution.
  erewrite bind_Ok by reflexivity. cbn.
  destruct (request_cookies w !! _); [by eexists |].
  destruct (create_session_id_runs w) as (w' & ? & E & ? & ?). eauto 6.
Qed.

Lemma get_session_id_known (w : world) (session_id : string) :
  request_cookies w !! SessionManager.SESSION_ID_NAME = Some session_id →
  SessionManager.__get_session_id w = (Ok session_id, w).
Proof.
  intros E. unfold SessionManager.__get_session_id.
  erewrite bind_Ok by reflexivity. cbn. by rewrite E.
Qed.

Lemma resolved_known (w : world) (session_id : string) :
  request_cookies w !! SessionManager.SESSION_ID_NAME = Some session_id →
  resolved w = session_id.
Proof. intros E. unfold resolved. by rewrite E. Qed.

(** One round of the loop of [__clean_redis_settings]. *)
Lemma strip_runs (l : loc) (k : string) (d : dict) (w : world) :
  heap w !! l = Some d →
  (d ← deref l;
   if decide (k ∈ dict_keys d) then obj_delitem l k else mret tt) w
  = (Ok tt, with_heap (<[l := delete k d]> (heap w)) w).
Proof.
  intros E.
  unfold obj_delitem, deref, store, gets, modify, lift, mbind, M_bind, mret, M_ret.
  rewrite E. cbn.
  destruct (decide (k ∈ dict_keys d)) as [Hin | Hin].
  - rewrite E. cbn. by rewrite (dict_delitem_present _ _ Hin).
  - rewrite (delete_absent _ _ Hin), (insert_id _ _ _ E).
    by destruct w.
Qed.

(** The copy has the items of the original but the two selectors. *)
Lemma clean_redis_settings_runs (l : loc) (w : world) :
  let d := default ∅ (heap w !! l) in
  let l' := fresh (dom (heap w)) in
  SessionManager.__clean_redis_settings l w
  = (Ok l',
     with_heap (<[l' := delete NotificationManager.DB_SETTING
                          (delete SessionManager.DB_SETTING d)]> (heap w)) w).
Proof.
  intros d l'.
  unfold SessionManager.__clean_redis_settings, for_each.
  erewrite bind_Ok by reflexivity. fold d l'.
  erewrite bind_Ok; [reflexivity |].
  erewrite bind_Ok by (apply strip_runs; apply lookup_insert_eq).
  erewrite bind_Ok by (apply strip_runs; apply lookup_insert_eq).
  wsimpl. by rewrite !insert_insert_eq.
Qed.


Lemma settings_get_runs (key : string) (w : world) :
  settings_get key w
  = match settings w !! key with
    | Some l => (Ok l, w)
    | None =>
        let l := fresh (dom (heap w)) in
        (Ok l, with_heap (<[l := ∅]> (heap w)) w)
    end.
Proof.
  unfold settings_get. erewrite bind_Ok by reflexivity. cbn.
  by destruct (settings w !! key).
Qed.

Lemma redis_settings_runs (w : world) :
  ∃ l w',
    SessionManager.__redis_settings w = (Ok l, w') ∧
    heap w' !! l = Some (connection_args (configured "pycket_redis" w)).
Proof.
  unfold SessionManager.__redis_settings, configured.
  destruct (settings w !! "pycket_redis") as [l |] eqn:E;
    (erewrite bind_Ok by (rewrite settings_get_runs, E; reflexivity)).
  - erewrite bind_Ok by reflexivity.
    erewrite bind_Ok by reflexivity.
    rewrite clean_redis_settings_runs.
    eexists _, _. split; [reflexivity |]. wsimpl.
    by rewrite lookup_insert_eq, lookup_insert_eq.
  - cbn. erewrite bind_Ok by reflexivity.
    erewrite bind_Ok by reflexivity.
    rewrite clean_redis_settings_runs.
    eexists _, _. split; [reflexivity |]. wsimpl.
    by rewrite !lookup_insert_eq.
Qed.

Lemma setup_dataset_new (w : world) :
  dataset w = None →
  ∃ w',
    SessionManager.__setup_dataset w = (Ok tt, w') ∧
    dataset w' = Some (Redis (connection_args (configured "pycket_redis" w))).
Proof.
  intros E. unfold SessionManager.__setup_dataset.
  erewrite bind_Ok by reflexivity. cbn. rewrite E.
  destruct (redis_settings_runs w) as (l & w1 & E1 & Hl).
  erewrite bind_Ok by exact E1.
  erewrite bind_Ok by reflexivity.
  eexists. split; [reflexivity |]. cbn. by rewrite Hl.
Qed.

Lemma setup_dataset_runs (w : world) :
  ∃ w', SessionManager.__setup_dataset w = (Ok tt, w').
Proof.
  destruct (dataset w) eqn:E.
  - unfold SessionManager.__setup_dataset.
    erewrite bind_Ok by reflexivity. cbn. rewrite E. by eexists.
  - destruct (setup_dataset_new w E) as (w' & ? & _). eauto.
Qed.

(** Finding the identifier leaves Redis, the request, the settings and
    the client of the manager alone. *)
Lemma get_session_id_frame :
  respects
    (keeps (λ w, (server w, redis_log w, request_cookies w, settings w, dataset w)))
    SessionManager.__get_session_id.
Proof. respects_with untouched. Qed.

(** Setting up the client touches the settings and [self.dataset] only. *)
Lemma setup_dataset_frame :
  respects
    (keeps (λ w, (server w, redis_log w, request_cookies w, settings w,
                  response_cookies w, uuids_drawn w)))
    SessionManager.__setup_dataset.
Proof. respects_with untouched. Qed.


Lemma get_session_from_db_runs (w : world) :
  ∃ w',
    SessionManager.__get_session_from_db w = (loaded w, w') ∧
    server w' = server w ∧
    redis_log w' = redis_log w ++ [GET (resolved w)] ∧
    request_cookies w' = request_cookies w ∧
    resolution w w'.
Proof.
  unfold SessionManager.__get_session_from_db.
  destruct (get_session_id_runs w) as (w1 & E1 & Hres).
  pose proof (get_session_id_frame w) as K1. rewrite E1 in K1.
  destruct (setup_dataset_runs w1) as [w2 E2].
  pose proof (setup_dataset_frame w1) as K2. rewrite E2 in K2.
  unfold keeps in K1, K2. cbn in K1, K2. simplify_eq.
  erewrite bind_Ok by exact E1.
  erewrite bind_Ok by exact E2.
  erewrite bind_Ok by reflexivity.
  assert (resolution w w2) as Hres2.
  { unfold resolution in *. destruct (request_cookies w !! _).
    - destruct Hres as [? ?]. split; congruence.
    - destruct Hres as [? [kwargs ?]]. split; [congruence |].
      exists kwargs. congruence. }
  clear Hres.
  unfold loaded, stored_session, SessionManager.__to_dict, resolution in *. wsimpl.
  replace (server w) with (server w2) by congruence.
  replace (redis_log w) with (redis_log w2) by congruence.
  replace (request_cookies w) with (request_cookies w2) in * by congruence.
  destruct (server w2 !! resolved w) as [r |]; cbn.
  - destruct (pickle_loads (value r)); eexists; (split; [reflexivity | done]).
  - eexists; (split; [reflexivity | done]).
Qed.

Lemma set_session_in_db_runs (session : dict) (w : world) :
  ∃ w',
    SessionManager.__set_session_in_db session w = (Ok tt, w') ∧
    server w'
    = <[resolved w := Record_ (pickle_dumps session)
                              (Some SessionManager.EXPIRE_SECONDS)]> (server w) ∧
    redis_log w'
    = redis_log w ++ [SET (resolved w) (pickle_dumps session);
                      EXPIRE (resolved w) SessionManager.EXPIRE_SECONDS] ∧
    request_cookies w' = request_cookies w ∧
    resolution w w'.
Proof.
  unfold SessionManager.__set_session_in_db.
  destruct (get_session_id_runs w) as (w1 & E1 & Hres).
  pose proof (get_session_id_frame w) as K1. rewrite E1 in K1.
  destruct (setup_dataset_runs w1) as [w2 E2].
  pose proof (setup_dataset_frame w1) as K2. rewrite E2 in K2.
  unfold keeps in K1, K2. cbn in K1, K2. simplify_eq.
  erewrite bind_Ok by exact E1.
  erewrite bind_Ok by exact E2.
  erewrite bind_Ok by reflexivity.
  assert (resolution w w2) as Hres2.
  { unfold resolution in *. destruct (request_cookies w !! _).
    - destruct Hres as [? ?]. split; congruence.
    - destruct Hres as [? [kwargs ?]]. split; [congruence |].
      exists kwargs. congruence. }
  clear Hres.
  eexists. split; [reflexivity |]. unfold resolution in *. wsimpl.
  replace (server w) with (server w2) by congruence.
  replace (redis_log w) with (redis_log w2) by congruence.
  replace (request_cookies w) with (request_cookies w2) in * by congruence.
  split; [| split; [by rewrite <- app_assoc | done]].
  by rewrite alter_insert_eq.
Qed.
End Methods.

(** ** What the public methods do *)

Section Calls.
Context `{Externals}.


(** Every call loads the session first. *)
Lemma call_unfold (o : op) (w : world) :
  call o w
  = match SessionManager.__get_session_from_db w with
    | (Ok session, w1) => after_load o session w1
    | (Raise e, w1) => (Raise e, w1)
    end.
Proof.
  destruct o; unfold call, returning, after_load, change_of,
    SessionManager.get, SessionManager.set, SessionManager.delete,
    SessionManager.keys, SessionManager.__getitem__,
    SessionManager.__setitem__, SessionManager.__contains__,
    SessionManager.get, SessionManager.set,
    SessionManager.__change_session, lift, raise, mbind, M_bind, mret, M_ret;
    destruct (SessionManager.__get_session_from_db w) as [[session | e] w1];
    cbn; try reflexivity;
    repeat case_match; by simplify_eq.
Qed.

(** A call that reads stops after the load. *)
Lemma read_runs (o : op) (w : world) :
  reads o = true →
  ∃ w',
    call o w = (match loaded w with
                | Ok session => (after_load o session w').1
                | Raise e => Raise e
                end, w') ∧
    server w' = server w ∧
    redis_log w' = redis_log w ++ [GET (resolved w)] ∧
    request_cookies w' = request_cookies w ∧
    resolution w w'.
Proof.
  intros Ho. rewrite call_unfold.
  destruct (get_session_from_db_runs w) as (w' & -> & ?).
  exists w'. split; [| done].
  destruct (loaded w); [| done]. by destruct o.
Qed.

(** A call that writes, on a session that loads and changes without an
    exception, saves the changed session. *)
Lemma write_runs (o : op) (change : dict → result dict)
    (session session' : dict) (w : world) :
  change_of o = Some change →
  loaded w = Ok session →
  change session = Ok session' →
  ∃ w1 w',
    call o w = (Ok Done, w') ∧
    request_cookies w1 = request_cookies w ∧
    resolution w w1 ∧
    server w'
    = <[resolved w1 := Record_ (pickle_dumps session')
                               (Some SessionManager.EXPIRE_SECONDS)]> (server w) ∧
    redis_log w'
    = redis_log w ++ [GET (resolved w);
                      SET (resolved w1) (pickle_dumps session');
                      EXPIRE (resolved w1) SessionManager.EXPIRE_SECONDS] ∧
    request_cookies w' = request_cookies w ∧
    resolution w1 w'.
Proof.
  intros Ho Hl Hc. rewrite call_unfold.
  destruct (get_session_from_db_runs w) as (w1 & -> & Hs1 & Hl1 & Hc1 & Hr1).
  rewrite Hl. unfold after_load. rewrite Ho, Hc.
  destruct (set_session_in_db_runs session' w1) as (w' & -> & Hs & Hlog & Hck & Hr).
  exists w1, w'. rewrite Hs, Hlog, Hs1, Hl1, Hck, <- app_assoc. done.
Qed.
End Calls.

(** ** Settings are changed where they are *)

Section InPlace.
Context `{Externals}.


Global Instance updated_in_place_preorder : PreOrder updated_in_place.
Proof.
  split.
  - intros w l d Hl. exists d. by split.
  - intros w1 w2 w3 H12 H23 l d Hl.
    destruct (H12 l d Hl) as (d2 & Hl2 & Hd2).
    destruct (H23 l d2 Hl2) as (d3 & Hl3 & Hd3).
    exists d3. split; [done |]. intros k Hk.
    destruct (Hd2 k Hk) as [Hk2 E2]. destruct (Hd3 k Hk2) as [Hk3 E3].
    split; [done |]. intros Hne. by rewrite E3, E2.
Qed.

Lemma same_heap_in_place (w w' : world) :
  heap w' = heap w → updated_in_place w w'.
Proof. intros E l d Hl. exists d. rewrite E. by split. Qed.

Lemma alloc_in_place (d : dict) (w : world) :
  updated_in_place w (with_heap (<[fresh (dom (heap w)) := d]> (heap w)) w).
Proof.
  intros l d0 Hl. exists d0. split; [| done]. cbn.
  rewrite lookup_insert_ne; [done |].
  intros <-. apply (is_fresh (dom (heap w))), elem_of_dom. eauto.
Qed.

Lemma obj_setitem_db_in_place (l : loc) (v : pyval) :
  respects updated_in_place (obj_setitem l "db" v).
Proof.
  intros w l0 d Hl.
  unfold obj_setitem, deref, store, gets, modify, mbind, M_bind. cbn.
  destruct (decide (l = l0)) as [-> | Hne].
  - rewrite Hl, lookup_insert_eq. cbn. eexists. split; [done |].
    intros k Hk. destruct (decide (k = "db")) as [-> | Hk'].
    + by rewrite lookup_insert_eq.
    + by rewrite lookup_insert_ne.
  - rewrite lookup_insert_ne by done. exists d. by split.
Qed.

Lemma obj_setdefault_in_place (l : loc) (k : string) (v : pyval) :
  respects updated_in_place (obj_setdefault l k v).
Proof.
  intros w l0 d Hl.
  unfold obj_setdefault, deref, store, gets, modify, mbind, M_bind, mret, M_ret.
  cbn. destruct (default ∅ (heap w !! l) !! k) eqn:Ek; cbn.
  - exists d. by split.
  - destruct (decide (l = l0)) as [-> | Hne].
    + rewrite Hl in *. rewrite lookup_insert_eq. cbn in *.
      eexists. split; [done |]. intros k0 Hk0.
      assert (k ≠ k0) by (intros ->; rewrite Ek in Hk0; by destruct Hk0).
      by rewrite lookup_insert_ne.
    + rewrite lookup_insert_ne by done. exists d. by split.
Qed.

Lemma clean_redis_settings_in_place (l : loc) :
  respects updated_in_place (SessionManager.__clean_redis_settings l).
Proof. intros w. rewrite clean_redis_settings_runs. apply alloc_in_place. Qed.

Ltac in_place_leaf :=
  first [ apply alloc_in_place | apply same_heap_in_place; reflexivity ].

Ltac in_place :=
  pose proof obj_setitem_db_in_place;
  pose proof obj_setdefault_in_place;
  pose proof clean_redis_settings_in_place;
  respects_with in_place_leaf.

Lemma get_session_id_in_place :
  respects updated_in_place SessionManager.__get_session_id.
Proof. in_place. Qed.

Lemma setup_dataset_in_place :
  respects updated_in_place SessionManager.__setup_dataset.
Proof. in_place. Qed.

Lemma call_in_place (o : op) : respects updated_in_place (call o).
Proof. destruct o; in_place. Qed.
End InPlace.

Section Marks.
Context `{Externals}.


Lemma has_key_in_place (l : loc) (k : string) (w w' : world) :
  updated_in_place w w' → has_key l k w → has_key l k w'.
Proof.
  intros HR (d & Hl & Hk). destruct (HR l d Hl) as (d' & Hl' & Hd').
  exists d'. split; [done |]. by apply Hd'.
Qed.

Lemma obj_setdefault_marks (l : loc) (k : string) (v : pyval) (w : world) :
  ∃ w', obj_setdefault l k v w = (Ok tt, w') ∧ has_key l k w'.
Proof.
  unfold obj_setdefault, has_key. erewrite bind_Ok by reflexivity.
  destruct (default ∅ (heap w !! l) !! k) eqn:Ek.
  - exists w. split; [done |].
    destruct (heap w !! l) as [d |]; cbn in Ek; [| by rewrite lookup_empty in Ek].
    exists d. eauto.
  - eexists. split; [reflexivity |]. cbn. rewrite lookup_insert_eq.
    eexists. split; [done |]. by rewrite lookup_insert_eq.
Qed.

Lemma cookie_settings_marks (lc : loc) (w : world) :
  settings w !! "pycket_cookies" = Some lc →
  ∃ w',
    SessionManager.__cookie_settings w = (Ok lc, w') ∧
    has_key lc "expires" w' ∧ has_key lc "expires_days" w'.
Proof.
  intros E. unfold SessionManager.__cookie_settings.
  erewrite bind_Ok by (rewrite settings_get_runs, E; reflexivity).
  destruct (obj_setdefault_marks lc "expires" PyNone w) as (w1 & E1 & H1).
  erewrite bind_Ok by exact E1.
  destruct (obj_setdefault_marks lc "expires_days" PyNone w1) as (w2 & E2 & H2).
  erewrite bind_Ok by exact E2.
  exists w2. split; [done |]. split; [| done].
  pose proof (obj_setdefault_in_place lc "expires_days" PyNone w1) as K.
  rewrite E2 in K. by eapply has_key_in_place.
Qed.

Lemma get_session_id_marks (lc : loc) (w : world) :
  settings w !! "pycket_cookies" = Some lc →
  request_cookies w !! SessionManager.SESSION_ID_NAME = None →
  has_key lc "expires" (SessionManager.__get_session_id w).2 ∧
  has_key lc "expires_days" (SessionManager.__get_session_id w).2.
Proof.
  intros E Hc. unfold SessionManager.__get_session_id.
  erewrite bind_Ok by reflexivity. cbn. rewrite Hc.
  unfold SessionManager.__create_session_id.
  erewrite bind_Ok by reflexivity.
  set (w1 := with_uuids_drawn _ w).
  destruct (cookie_settings_marks lc w1 E) as (w2 & E2 & Hk).
  erewrite bind_Ok by exact E2.
  erewrite bind_Ok by reflexivity.
  erewrite bind_Ok by reflexivity.
  exact Hk.
Qed.

Lemma setup_dataset_marks (lr : loc) (w : world) :
  settings w !! "pycket_redis" = Some lr →
  dataset w = None →
  has_key lr "db" (SessionManager.__setup_dataset w).2.
Proof.
  intros E Hd. unfold SessionManager.__setup_dataset.
  erewrite bind_Ok by reflexivity. cbn. rewrite Hd.
  unfold SessionManager.__redis_settings.
  erewrite bind_Ok; cycle 1.
  { erewrite bind_Ok by (rewrite settings_get_runs, E; reflexivity).
    erewrite bind_Ok by reflexivity.
    erewrite bind_Ok by reflexivity.
    apply clean_redis_settings_runs. }
  erewrite bind_Ok by reflexivity.
  unfold has_key. wsimpl.
  eexists. rewrite lookup_insert_ne.
  - rewrite lookup_insert_eq. split; [done |]. by rewrite lookup_insert_eq.
  - intros Heq. eapply (is_fresh (dom (<[lr := _]> (heap w)))).
    rewrite Heq. apply elem_of_dom. rewrite lookup_insert_eq. eauto.
Qed.

Lemma after_load_in_place (o : op) (session : dict) (w : world) :
  updated_in_place w (after_load o session w).2.
Proof.
  unfold after_load. destruct (change_of o) as [change |].
  - destruct (change session) as [session' | e]; [| reflexivity].
    assert (respects updated_in_place (SessionManager.__set_session_in_db session')) as K.
    { pose proof get_session_id_in_place. pose proof setup_dataset_in_place.
      respects_with ltac:(apply same_heap_in_place; reflexivity). }
    specialize (K w).
    by destruct (SessionManager.__set_session_in_db session' w) as [[[] | e] w'].
  - destruct o; cbn; try reflexivity. destruct (is_None _); reflexivity.
Qed.

Lemma after_session_id_in_place (session_id : string) :
  respects updated_in_place
    (SessionManager.__setup_dataset;;
     raw_session ← redis_get session_id;
     SessionManager.__to_dict raw_session).
Proof.
  pose proof setup_dataset_in_place.
  respects_with ltac:(apply same_heap_in_place; reflexivity).
Qed.

(** The first look-up of the identifier for a request without the cookie
    leaves the two expiry keys in the configured cookie dictionary. *)
Lemma get_session_from_db_marks_cookies (lc : loc) (w : world) :
  settings w !! "pycket_cookies" = Some lc →
  request_cookies w !! SessionManager.SESSION_ID_NAME = None →
  has_key lc "expires" (SessionManager.__get_session_from_db w).2 ∧
  has_key lc "expires_days" (SessionManager.__get_session_from_db w).2.
Proof.
  intros Ec Hc. unfold SessionManager.__get_session_from_db.
  destruct (get_session_id_marks lc w Ec Hc) as [Hk1 Hk2].
  destruct (get_session_id_runs w) as (w1 & E1 & _).
  rewrite E1 in Hk1, Hk2. cbn in Hk1, Hk2.
  erewrite bind_Ok by exact E1.
  pose proof (after_session_id_in_place (resolved w) w1) as K.
  split; by eapply has_key_in_place.
Qed.

(** The first access to Redis of a manager leaves ['db'] in the
    configured Redis dictionary. *)
Lemma get_session_from_db_marks_redis (lr : loc) (w : world) :
  settings w !! "pycket_redis" = Some lr →
  dataset w = None →
  has_key lr "db" (SessionManager.__get_session_from_db w).2.
Proof.
  intros Er Hd. unfold SessionManager.__get_session_from_db.
  destruct (get_session_id_runs w) as (w1 & E1 & _).
  pose proof (get_session_id_frame w) as K1.
  rewrite E1 in K1. unfold keeps in K1. cbn in K1.
  erewrite bind_Ok by exact E1.
  assert (settings w1 !! "pycket_redis" = Some lr) as Er1 by (simplify_eq; congruence).
  assert (dataset w1 = None) as Hd1 by (simplify_eq; congruence).
  pose proof (setup_dataset_marks lr w1 Er1 Hd1) as Hk.
  destruct (setup_dataset_runs w1) as [w2 E2].
  rewrite E2 in Hk. cbn in Hk.
  erewrite bind_Ok by exact E2.
  assert (respects updated_in_place
            (redis_get (resolved w) ≫= SessionManager.__to_dict)) as K3
    by respects_with ltac:(apply same_heap_in_place; reflexivity).
  specialize (K3 w2). by eapply has_key_in_place.
Qed.

(** What was marked after the load is marked after the call. *)
Lemma call_keeps_marks (o : op) (l : loc) (k : string) (w : world) :
  has_key l k (SessionManager.__get_session_from_db w).2 →
  has_key l k (call o w).2.
Proof.
  intros Hk. rewrite call_unfold.
  destruct (SessionManager.__get_session_from_db w) as [[session | e] w1];
    cbn in *; [| done].
  pose proof (after_load_in_place o session w1). by eapply has_key_in_place.
Qed.
End Marks.

(** ** With and without the cookie *)

Section Cookie.
Context `{Externals}.

(** A client that sent the cookie: every command of a call is about the
    identifier of the cookie, and nothing is drawn or set. *)
Lemma call_known (o : op) (session_id : string) (w : world) :
  request_cookies w !! SessionManager.SESSION_ID_NAME = Some session_id →
  ∃ l,
    redis_log (call o w).2 = redis_log w ++ l ∧
    Forall (λ c, cmd_name c = session_id) l ∧
    uuids_drawn (call o w).2 = uuids_drawn w ∧
    response_cookies (call o w).2 = response_cookies w ∧
    request_cookies (call o w).2 = request_cookies w.
Proof.
  intros Hc. rewrite call_unfold.
  destruct (get_session_from_db_runs w) as (w1 & -> & _ & Hl & Hc1 & Hr).
  unfold resolution in Hr. rewrite Hc in Hr. destruct Hr as [Hu Hrc].
  rewrite (resolved_known w session_id Hc) in Hl.
  assert (∃ l, redis_log w1 = redis_log w ++ l ∧
               Forall (λ c, cmd_name c = session_id) l) as Hw1.
  { exists [GET session_id]. split; [done |]. by repeat constructor. }
  destruct (loaded w) as [session | e]; [| by destruct Hw1 as (l & ? & ?); exists l].
  unfold after_load. destruct (change_of o) as [change |].
  - destruct (change session) as [session' | e];
      [| by destruct Hw1 as (l & ? & ?); exists l].
    destruct (set_session_in_db_runs session' w1) as (w2 & -> & _ & Hl2 & Hc2 & Hr2).
    unfold resolution in Hr2. rewrite Hc1, Hc in Hr2. destruct Hr2 as [Hu2 Hrc2].
    rewrite (resolved_known w1 session_id) in Hl2 by congruence.
    exists [GET session_id; SET session_id (pickle_dumps session');
            EXPIRE session_id SessionManager.EXPIRE_SECONDS].
    cbn. rewrite Hl2, Hl, <- app_assoc.
    split; [done |]. split; [by repeat constructor |].
    repeat split; congruence.
  - destruct Hw1 as (l & ? & ?). exists l.
    destruct o; cbn; try done. by destruct (is_None _).
Qed.

(** A first visit: a call that reads finds nothing under the identifier
    it draws. *)
Lemma first_read_runs (o : op) (w : world) :
  reads o = true →
  request_cookies w !! SessionManager.SESSION_ID_NAME = None →
  server w !! uuid4 (uuids_drawn w) = None →
  ∃ w' kwargs,
    call o w = (Ok (on_empty o), w') ∧
    server w' = server w ∧
    redis_log w' = redis_log w ++ [GET (uuid4 (uuids_drawn w))] ∧
    request_cookies w' = request_cookies w ∧
    uuids_drawn w' = S (uuids_drawn w) ∧
    response_cookies w' !! SessionManager.SESSION_ID_NAME
    = Some (uuid4 (uuids_drawn w), kwargs).
Proof.
  intros Ho Hc Hnew.
  destruct (read_runs o w Ho) as (w' & E & Hs & Hl & Hc' & Hr).
  unfold resolution in Hr. rewrite Hc in Hr. destruct Hr as (Hu & kwargs & Hk).
  assert (resolved w = uuid4 (uuids_drawn w)) as Hres
    by (unfold resolved; by rewrite Hc).
  assert (loaded w = Ok ∅) as Hload
    by (unfold loaded, stored_session; by rewrite Hres, Hnew).
  rewrite Hload in E. rewrite Hres in Hl.
  exists w', kwargs. split; [| done]. rewrite E. f_equal.
  by destruct o.
Qed.

Lemma first_reads_run (os : list op) (w : world) :
  Forall (λ o, reads o = true) os →
  request_cookies w !! SessionManager.SESSION_ID_NAME = None →
  (∀ n, (uuids_drawn w ≤ n)%nat → server w !! uuid4 n = None) →
  ∃ w',
    calls os w = ((λ o, Ok (on_empty o)) <$> os, w') ∧
    server w' = server w ∧
    redis_log w'
    = redis_log w ++ ((λ n, GET (uuid4 n)) <$> seq (uuids_drawn w) (length os)) ∧
    uuids_drawn w' = (uuids_drawn w + length os)%nat ∧
    (os ≠ [] →
     ∃ kwargs, response_cookies w' !! SessionManager.SESSION_ID_NAME
               = Some (uuid4 (uuids_drawn w + length os - 1)%nat, kwargs)).
Proof.
  intros Hos. revert w. induction Hos as [| o os Ho _ IH]; intros w Hc Hnew.
  - exists w. cbn. rewrite app_nil_r, Nat.add_0_r. done.
  - destruct (first_read_runs o w Ho Hc) as (w1 & kwargs & E & Hs & Hl & Hc1 & Hu & Hk).
    { apply Hnew. lia. }
    destruct (IH w1) as (w' & E' & Hs' & Hl' & Hu' & Hk').
    { by rewrite Hc1. }
    { intros n Hn. rewrite Hs. apply Hnew. lia. }
    exists w'. cbn. rewrite E, E'. split; [done |].
    split; [congruence |].
    split; [by rewrite Hl', Hl, Hu, <- app_assoc |].
    split; [lia |]. intros _.
    destruct os as [| o' os'].
    + cbn in E'. injection E' as <-. exists kwargs.
      cbn. by replace (uuids_drawn w + 1 - 1)%nat with (uuids_drawn w) by lia.
    + destruct Hk' as [kwargs' Hk']; [done |]. exists kwargs'.
      rewrite Hk', Hu. do 2 f_equal. cbn. f_equal. lia.
Qed.
End Cookie.

(** ** Reading one key *)

Section Accessors.
Context `{Externals}.

(** [get] answers from the loaded session and raises only what the load
    raises. *)
Lemma get_runs (name : string) (default : pyval) (w : world) :
  (call (Get name default) w).1
  = match loaded w with
    | Ok session => Ok (Value (dict_get session name default))
    | Raise e => Raise e
    end.
Proof.
  destruct (read_runs (Get name default) w eq_refl) as (w' & -> & _).
  by destruct (loaded w).
Qed.

(** [s[key]] raises [KeyError] for a key that is missing and for a key
    whose value is [None]; otherwise it gives the value. *)
Lemma getitem_runs (key : string) (w : world) :
  (call (Getitem key) w).1
  = match loaded w with
    | Ok session =>
        match session !! key with
        | None | Some PyNone => Raise (KeyError (key +:+ " not found in dataset"))
        | Some v => Ok (Value v)
        end
    | Raise e => Raise e
    end.
Proof.
  rewrite call_unfold.
  destruct (get_session_from_db_runs w) as (w' & -> & _).
  destruct (loaded w) as [session | e]; [| done].
  unfold after_load, dict_get. cbn.
  destruct (session !! key) as [[] |]; done.
Qed.

Lemma contains_runs (key : string) (w : world) :
  (call (Contains key) w).1
  = match loaded w with
    | Ok session => Ok (Truth (dict_contains session key))
    | Raise e => Raise e
    end.
Proof.
  destruct (read_runs (Contains key) w eq_refl) as (w' & -> & _).
  by destruct (loaded w).
Qed.
End Accessors.

(** ** Deleting names *)

Section Deleting.
Context `{Externals}.

Lemma elem_of_dict_keys_delete (d : dict) (k k' : string) :
  k ≠ k' → k' ∈ dict_keys (delete k d) ↔ k' ∈ dict_keys d.
Proof. intros Hne. by rewrite !elem_of_dict_keys, lookup_delete_ne. Qed.

(** Names that are all different are deleted one after the other, the
    missing ones skipped. *)
Lemma del_each_distinct (names : list string) (session0 session : dict) :
  NoDup names →
  (∀ name, name ∈ names → name ∈ dict_keys session0 ↔ name ∈ dict_keys session) →
  SessionManager.del_each (filter (λ name, name ∈ dict_keys session0) names) session
  = Ok (without names session).
Proof.
  intros Hnd. revert session.
  induction Hnd as [| name names Hnotin _ IH]; intros session Hkeys; [done |].
  rewrite filter_cons. cbn.
  destruct (decide (name ∈ dict_keys session0)) as [Hin | Hin].
  - cbn. rewrite dict_delitem_present by (apply Hkeys; [left | done]).
    apply IH. intros name' Hin'.
    rewrite elem_of_dict_keys_delete by (intros ->; done).
    apply Hkeys. by right.
  - rewrite (delete_absent session name).
    + apply IH. intros name' Hin'. apply Hkeys. by right.
    + intros Hin'. apply Hin, Hkeys; [left | done].
Qed.

Lemma delete_change_distinct (names : list string) (session : dict) :
  NoDup names →
  SessionManager.delete_change names session = Ok (without names session).
Proof. intros Hnd. by apply del_each_distinct. Qed.

Lemma lookup_without (names : list string) (session : dict) (k : string) :
  without names session !! k
  = if decide (k ∈ names) then None else session !! k.
Proof.
  unfold without. revert session.
  induction names as [| name names IH]; intros session; cbn.
  - by case_decide; [set_solver |].
  - rewrite IH. destruct (decide (k = name)) as [-> | Hne].
    + rewrite lookup_delete_eq, (decide_True (P := name ∈ name :: names)) by left.
      by destruct (decide (name ∈ names)).
    + rewrite lookup_delete_ne by done.
      destruct (decide (k ∈ names)).
      * by rewrite decide_True by (by right).
      * by rewrite decide_False by (by intros [? | ?]%elem_of_cons).
Qed.

(** [delete] with names that are all different: the stored session
    loses the names it had, the rest stays, and the session is written
    and expires anew, also when none of the names was there. *)
Lemma delete_distinct_runs (names : list string) (session : dict) (w : world) :
  NoDup names →
  loaded w = Ok session →
  ∃ id_load id_save w',
    call (Delete names) w = (Ok Done, w') ∧
    redis_log w'
    = redis_log w ++ [GET id_load;
                      SET id_save (pickle_dumps (without names session));
                      EXPIRE id_save SessionManager.EXPIRE_SECONDS].
Proof.
  intros Hnd Hl.
  destruct (write_runs (Delete names) _ session (without names session) w
              eq_refl Hl (delete_change_distinct names session Hnd))
    as (w1 & w' & E & _ & _ & _ & Hlog & _).
  eauto.
Qed.
End Deleting.

(** * The claims *)

Section Claims.
Context `{Externals}.

(** C6.  Calls that only read ([get], [in], [keys]), however many,
    leave every entry of the store as it is, value and time to live,
    and send nothing to Redis but [GET]s: no write and no new expiry
    comes from a read. *)
Theorem reads_leave_the_store (os : list op) (w : world) :
  Forall (λ o, reads o = true) os →
  ∃ l,
    server (calls os w).2 = server w ∧
    redis_log (calls os w).2 = redis_log w ++ l ∧
    Forall (λ c, is_GET c = true) l.
Proof.
  intros Hos. revert w. induction Hos as [| o os Ho _ IH]; intros w; cbn.
  - exists []. by rewrite app_nil_r.
  - destruct (read_runs o w Ho) as (w1 & -> & Hs & Hl & _).
    destruct (IH w1) as (l & Hs' & Hl' & HG).
    destruct (calls os w1) as [rs w2]. cbn in *.
    exists (GET (resolved w) :: l).
    rewrite Hs', Hs, Hl', Hl, <- app_assoc. repeat split.
    by constructor.
Qed.

(** C7.  Every save writes the pickle of the whole session under the
    identifier and then sets the time to live of the entry to
    [EXPIRE_SECONDS], which is 86400 seconds, whatever entry and
    whatever time to live were there before. *)
Theorem save_expires_in_one_day (session : dict) (w : world) :
  SessionManager.EXPIRE_SECONDS = 86400 ∧
  ∃ w',
    SessionManager.__set_session_in_db session w = (Ok tt, w') ∧
    server w' !! resolved w = Some (Record_ (pickle_dumps session) (Some 86400)) ∧
    redis_log w'
    = redis_log w ++ [SET (resolved w) (pickle_dumps session);
                      EXPIRE (resolved w) 86400].
Proof.
  split; [reflexivity |].
  destruct (set_session_in_db_runs session w) as (w' & E & Hs & Hl & _).
  exists w'. split; [exact E |]. rewrite Hs, Hl. split; [| done].
  apply lookup_insert_eq.
Qed.

(** C9.  A call that writes ([set], [delete], [s[k] = v]) on a session
    that loads, with a change that raises nothing, does three things to
    Redis and no more: it [GET]s the stored pickle, and after the change
    in memory it [SET]s the pickle of the whole changed session and
    [EXPIRE]s it.  The entry it leaves is that pickle; no other entry
    changes.  With the cookie of the request the three commands are about
    its identifier; without it the load and the save each draw an
    identifier of their own. *)
Theorem write_is_load_change_save (o : op) (change : dict → result dict)
    (session session' : dict) (w : world) :
  change_of o = Some change →
  loaded w = Ok session →
  change session = Ok session' →
  ∃ id_load id_save w',
    call o w = (Ok Done, w') ∧
    redis_log w'
    = redis_log w ++ [GET id_load;
                      SET id_save (pickle_dumps session');
                      EXPIRE id_save SessionManager.EXPIRE_SECONDS] ∧
    server w'
    = <[id_save := Record_ (pickle_dumps session')
                           (Some SessionManager.EXPIRE_SECONDS)]> (server w) ∧
    match request_cookies w !! SessionManager.SESSION_ID_NAME with
    | Some session_id => id_load = session_id ∧ id_save = session_id
    | None => id_load = uuid4 (uuids_drawn w) ∧ id_save = uuid4 (S (uuids_drawn w))
    end.
Proof.
  intros Ho Hl Hc.
  destruct (write_runs o change session session' w Ho Hl Hc)
    as (w1 & w' & E & Hck & Hres & Hs & Hlog & _).
  exists (resolved w), (resolved w1), w'.
  split; [exact E |]. split; [exact Hlog |]. split; [exact Hs |].
  unfold resolved, resolution in *. rewrite Hck.
  destruct (request_cookies w !! _); [done |].
  destruct Hres as [-> _]. done.
Qed.

(** C8.  The client of a manager that has none yet is made with the
    configured dictionary ['pycket_redis'] (empty when there is none),
    but: neither ['db_sessions'] nor ['db_notifications'] is among the
    arguments; ['db'] is the value of ['db_sessions'], or 0 when that is
    not set; every other argument is passed as configured. *)
Theorem connection_arguments (w : world) :
  dataset w = None →
  ∃ w' kwargs,
    SessionManager.__setup_dataset w = (Ok tt, w') ∧
    dataset w' = Some (Redis kwargs) ∧
    kwargs !! "db_sessions" = None ∧
    kwargs !! "db_notifications" = None ∧
    kwargs !! "db"
    = Some (dict_get (configured "pycket_redis" w) "db_sessions" (PyInt 0)) ∧
    ∀ k, k ∉ ["db_sessions"; "db_notifications"; "db"] →
         kwargs !! k = configured "pycket_redis" w !! k.
Proof.
  intros Hd. destruct (setup_dataset_new w Hd) as (w' & E & Hd').
  exists w', (connection_args (configured "pycket_redis" w)).
  split; [exact E |]. split; [exact Hd' |].
  unfold connection_args, SessionManager.DB_SETTING,
    NotificationManager.DB_SETTING, SessionManager.DB.
  split; [by rewrite lookup_delete_ne, lookup_delete_eq |].
  split; [by rewrite lookup_delete_eq |].
  split; [by rewrite !lookup_delete_ne, lookup_insert_eq |].
  intros k Hk.
  rewrite !lookup_delete_ne, lookup_insert_ne; [done | | |];
    intros <-; apply Hk; set_solver.
Qed.

(** C10.  Looking the settings up changes them, in the dictionaries the
    application settings hold and not in copies.  After any call on the
    session: when the request came without the cookie, so that one is
    made, a configured ['pycket_cookies'] has the keys ['expires'] and
    ['expires_days']; when the manager had no client yet, so that one is
    made, a configured ['pycket_redis'] has the key ['db'].  The settings
    point to the same dictionaries as before and nothing was taken out of
    them: the selectors are stripped from the copy only. *)
Theorem settings_are_updated_in_place (o : op) (w : world) :
  settings (call o w).2 = settings w ∧
  updated_in_place w (call o w).2 ∧
  match settings w !! "pycket_cookies",
        request_cookies w !! SessionManager.SESSION_ID_NAME with
  | Some lc, None =>
      has_key lc "expires" (call o w).2 ∧ has_key lc "expires_days" (call o w).2
  | _, _ => True
  end ∧
  match settings w !! "pycket_redis", dataset w with
  | Some lr, None => has_key lr "db" (call o w).2
  | _, _ => True
  end.
Proof.
  split; [apply (keeps_settings o w) |].
  split; [apply (call_in_place o w) |].
  split.
  - destruct (settings w !! "pycket_cookies") as [lc |] eqn:Ec; [| done].
    destruct (request_cookies w !! _) eqn:Hc; [done |].
    destruct (get_session_from_db_marks_cookies lc w Ec Hc).
    split; by apply call_keeps_marks.
  - destruct (settings w !! "pycket_redis") as [lr |] eqn:Er; [| done].
    destruct (dataset w) eqn:Hd; [done |].
    by apply call_keeps_marks, get_session_from_db_marks_redis.
Qed.

(** C2, as the code has it.  The identifier is looked up anew at every
    access to the store, by reading the cookie of the request; nothing
    is kept in the manager.  For a request that carries the cookie the
    look-up changes nothing and gives the identifier of the cookie, so
    all calls through the manager, whatever they return or raise, send
    Redis commands about that one identifier only, draw no identifier
    and set no cookie. *)
Theorem known_client_keeps_identifier (os : list op) (session_id : string) (w : world) :
  request_cookies w !! SessionManager.SESSION_ID_NAME = Some session_id →
  SessionManager.__get_session_id w = (Ok session_id, w) ∧
  ∃ l,
    redis_log (calls os w).2 = redis_log w ++ l ∧
    Forall (λ c, cmd_name c = session_id) l ∧
    uuids_drawn (calls os w).2 = uuids_drawn w ∧
    response_cookies (calls os w).2 = response_cookies w.
Proof.
  intros Hc. split; [by apply get_session_id_known |].
  revert w Hc. induction os as [| o os IH]; intros w Hc; cbn.
  - exists []. by rewrite app_nil_r.
  - destruct (call_known o session_id w Hc) as (l1 & Hl1 & HF1 & Hu1 & Hr1 & Hc1).
    destruct (call o w) as [r w1]. cbn in *.
    destruct (IH w1) as (l2 & Hl2 & HF2 & Hu2 & Hr2); [congruence |].
    destruct (calls os w1) as [rs w2]. cbn in *.
    exists (l1 ++ l2). rewrite Hl2, Hl1, <- app_assoc.
    split; [done |]. split; [by apply Forall_app |]. split; congruence.
Qed.

(** C4.  A client without the cookie, whose calls only read, and for
    whom the identifiers drawn are new to the store: every [get]
    returns its default, every [in] is false, [keys] is empty; no entry
    of the store changes and Redis sees [GET]s only; and once a call
    was made the response carries the identifier cookie, with the
    identifier drawn last. *)
Theorem first_visit_reads (os : list op) (w : world) :
  Forall (λ o, reads o = true) os →
  os ≠ [] →
  request_cookies w !! SessionManager.SESSION_ID_NAME = None →
  (∀ n, (uuids_drawn w ≤ n)%nat → server w !! uuid4 n = None) →
  ∃ w' kwargs,
    calls os w = ((λ o, Ok (on_empty o)) <$> os, w') ∧
    server w' = server w ∧
    redis_log w'
    = redis_log w ++ ((λ n, GET (uuid4 n)) <$> seq (uuids_drawn w) (length os)) ∧
    response_cookies w' !! SessionManager.SESSION_ID_NAME
    = Some (uuid4 (uuids_drawn w + length os - 1)%nat, kwargs).
Proof.
  intros Hos Hne Hc Hnew.
  destruct (first_reads_run os w Hos Hc Hnew) as (w' & E & Hs & Hl & _ & Hk).
  destruct (Hk Hne) as [kwargs Hk']. by exists w', kwargs.
Qed.
End Claims.

(** ** Writes and the reads after them *)

Section RoundTrip.
Context `{Externals}.

(** What is asked of [pickle]: loading gives back what was dumped. *)
Hypothesis pickle_round_trip : ∀ d, pickle_loads (pickle_dumps d) = Some d.

Lemma loaded_known (session_id : string) (session : dict) (w : world) :
  request_cookies w !! SessionManager.SESSION_ID_NAME = Some session_id →
  stored_session w session_id = Some session →
  loaded w = Ok session.
Proof.
  intros Hc Hs. unfold loaded. by rewrite (resolved_known w session_id Hc), Hs.
Qed.

Lemma set_known (name : string) (value : pyval)
    (session_id : string) (session : dict) (w : world) :
  request_cookies w !! SessionManager.SESSION_ID_NAME = Some session_id →
  stored_session w session_id = Some session →
  ∃ w',
    call (Set_ name value) w = (Ok Done, w') ∧
    request_cookies w' = request_cookies w ∧
    stored_session w' session_id = Some (<[name := value]> session).
Proof.
  intros Hc Hs.
  destruct (write_runs (Set_ name value) _ session (<[name := value]> session) w
              eq_refl (loaded_known _ _ _ Hc Hs) eq_refl)
    as (w1 & w' & E & Hc1 & _ & Hsv & _ & Hc' & _).
  exists w'. split; [exact E |]. split; [exact Hc' |].
  unfold stored_session. rewrite Hsv, (resolved_known w1 session_id) by congruence.
  rewrite lookup_insert_eq. cbn. apply pickle_round_trip.
Qed.

Lemma sets_known (writes : list (string * pyval))
    (session_id : string) (session : dict) (w : world) :
  request_cookies w !! SessionManager.SESSION_ID_NAME = Some session_id →
  stored_session w session_id = Some session →
  ∃ w',
    calls (uncurry Set_ <$> writes) w = (replicate (length writes) (Ok Done), w') ∧
    request_cookies w' = request_cookies w ∧
    stored_session w' session_id = Some (written writes session).
Proof.
  revert session w. induction writes as [| [name value] writes IH];
    intros session w Hc Hs.
  - by exists w.
  - destruct (set_known name value session_id session w Hc Hs) as (w1 & E & Hc1 & Hs1).
    destruct (IH (<[name := value]> session) w1) as (w' & E' & Hc' & Hs');
      [congruence | done |].
    exists w'. rewrite fmap_cons.
    change (uncurry Set_ (name, value)) with (Set_ name value).
    cbn [calls length replicate]. rewrite E, E'.
    split; [done |]. split; [congruence | done].
Qed.

Lemma lookup_written_other (writes : list (string * pyval))
    (session : dict) (name : string) :
  name ∉ writes.*1 → written writes session !! name = session !! name.
Proof.
  unfold written. revert session.
  induction writes as [| [name' value'] writes IH]; intros session Hn; [done |].
  cbn in *. apply not_elem_of_cons in Hn as [Hne Hn].
  rewrite IH by done. by rewrite lookup_insert_ne.
Qed.

Lemma lookup_written_last (before after : list (string * pyval))
    (session : dict) (name : string) (value : pyval) :
  name ∉ after.*1 →
  written (before ++ (name, value) :: after) session !! name = Some value.
Proof.
  intros Hn.
  replace (written (before ++ (name, value) :: after) session)
    with (written after (<[name := value]> (written before session)))
    by (unfold written; by rewrite foldl_app).
  rewrite lookup_written_other by done. apply lookup_insert_eq.
Qed.

(** C1.  When the request carries the session cookie and the stored
    session unpickles, a series of [set]s all succeed, and a [get] of a
    name after them returns the value of the last [set] of that name:
    through the same manager, and in a later request that carries the
    same identifier. *)
Theorem read_your_writes (before after : list (string * pyval))
    (name : string) (value default : pyval)
    (session_id : string) (session : dict)
    (cookies : gmap string string) (w : world) :
  request_cookies w !! SessionManager.SESSION_ID_NAME = Some session_id →
  cookies !! SessionManager.SESSION_ID_NAME = Some session_id →
  stored_session w session_id = Some session →
  name ∉ after.*1 →
  ∃ w',
    calls (uncurry Set_ <$> (before ++ (name, value) :: after)) w
    = (replicate (length (before ++ (name, value) :: after)) (Ok Done), w') ∧
    (call (Get name default) w').1 = Ok (Value value) ∧
    (call (Get name default) (new_request cookies w')).1 = Ok (Value value).
Proof.
  intros Hc Hck Hs Hn.
  destruct (sets_known (before ++ (name, value) :: after) session_id session w Hc Hs)
    as (w' & E & Hc' & Hs').
  exists w'. split; [exact E |].
  rewrite !get_runs.
  rewrite (loaded_known session_id _ w') by (congruence || done).
  rewrite (loaded_known session_id _ (new_request cookies w')) by done.
  unfold dict_get. by rewrite lookup_written_last.
Qed.
End RoundTrip.

(** * The claims on sample worlds *)

(** A first visit: one [set], then a [get] of the same name. *)
Definition first_visit : list (result answer) * @world sample_externals :=
  calls [Set_ "a" (PyInt 1); Get "a" PyNone] blank_world.

(** C2, as the spec has it, fails.  One manager, a request without the
    cookie, two calls: three identifiers are drawn, the load and the save of
    the [set] and the load of the [get] each use another one, and the [get]
    does not find what the [set] wrote.  No single identifier serves all the
    commands. *)
Lemma new_client_changes_identifier :
  first_visit.1 = [Ok Done; Ok (Value PyNone)] ∧
  cmd_name <$> redis_log first_visit.2 = ["uuid-0"; "uuid-1"; "uuid-1"; "uuid-2"] ∧
  uuids_drawn first_visit.2 = 3%nat ∧
  ¬ ∃ session_id, Forall (λ c, cmd_name c = session_id) (redis_log first_visit.2).
Proof.
  assert (cmd_name <$> redis_log first_visit.2
          = ["uuid-0"; "uuid-1"; "uuid-1"; "uuid-2"]) as Hnames
    by (vm_compute; reflexivity).
  split; [vm_compute; reflexivity |]. split; [exact Hnames |].
  split; [vm_compute; reflexivity |].
  intros [session_id HF].
  pose proof (proj2 (Forall_fmap cmd_name (λ name, name = session_id) _) HF) as HF'.
  rewrite Hnames in HF'.
  inversion HF' as [| ? ? Efirst HF1]. inversion HF1 as [| ? ? Esecond _].
  congruence.
Qed.

(** C3 on a session that holds [None] under ['x'].  The key is in the
    session: [in] says so, and [get] returns the stored [None] and not its
    default.  [s['x']] raises [KeyError] all the same, with a message that
    says the key was not found. *)
Theorem getitem_raises_on_stored_None :
  (call (Contains "x") (known_client "s1" {["x" := PyNone]})).1 = Ok (Truth true) ∧
  (call (Get "x" (PyInt 5)) (known_client "s1" {["x" := PyNone]})).1 = Ok (Value PyNone) ∧
  (call (Getitem "x") (known_client "s1" {["x" := PyNone]})).1
  = Raise (KeyError "x not found in dataset").
Proof. by vm_compute. Qed.

(** C5 on a name given twice.  ['a'] is in the session; [delete('a', 'a')]
    puts it twice into [names_in_common], the second [del] raises
    [KeyError], and the session is not saved: the entry keeps ['a'] and its
    old time to live. *)
Theorem delete_raises_on_repeated_name :
  let w := known_client "s1" {["a" := PyInt 1]} in
  (call (Delete ["a"; "a"]) w).1 = Raise (KeyError "a") ∧
  server (call (Delete ["a"; "a"]) w).2 = server w ∧
  redis_log (call (Delete ["a"; "a"]) w).2 = [GET "s1"].
Proof. by vm_compute. Qed.

(** C1 on a known client whose session holds ['a']: three [set]s, two of
    them of ['a'], then [get('a')]. *)
Lemma read_your_writes_witness :
  (∀ d, @pickle_loads sample_externals (pickle_dumps d) = Some d) ∧
  request_cookies (known_client "s1" {["a" := PyInt 0]})
    !! SessionManager.SESSION_ID_NAME = Some "s1" ∧
  session_cookie "s1" !! SessionManager.SESSION_ID_NAME = Some "s1" ∧
  stored_session (known_client "s1" {["a" := PyInt 0]}) "s1" = Some {["a" := PyInt 0]} ∧
  ("a" ∉ [("b", PyInt 4)].*1) ∧
  ∃ w',
    calls (uncurry Set_ <$> ([("a", PyInt 1); ("b", PyInt 2)]
                             ++ ("a", PyInt 3) :: [("b", PyInt 4)]))
          (known_client "s1" {["a" := PyInt 0]})
    = (replicate (length ([("a", PyInt 1); ("b", PyInt 2)]
                          ++ ("a", PyInt 3) :: [("b", PyInt 4)])) (Ok Done), w') ∧
    (call (Get "a" PyNone) w').1 = Ok (Value (PyInt 3)) ∧
    (call (Get "a" PyNone)
       (new_request (session_cookie "s1") w')).1
    = Ok (Value (PyInt 3)).
Proof.
  assert (∀ d, @pickle_loads sample_externals (pickle_dumps d) = Some d) as Hp
    by (intros d; reflexivity).
  assert ("a" ∉ [("b", PyInt 4)].*1) as Hn
    by (apply (bool_decide_unpack _); vm_compute; exact I).
  split; [exact Hp |]. split; [reflexivity |]. split; [reflexivity |].
  split; [reflexivity |]. split; [exact Hn |].
  apply (read_your_writes (H := sample_externals) Hp
           [("a", PyInt 1); ("b", PyInt 2)] [("b", PyInt 4)]
           "a" (PyInt 3) PyNone "s1" {["a" := PyInt 0]}
           (session_cookie "s1")
           (known_client "s1" {["a" := PyInt 0]}));
    [reflexivity | reflexivity | reflexivity | exact Hn].
Defined.

(** C2, as the code has it, on a known client. *)
Lemma known_client_keeps_identifier_witness :
  request_cookies (known_client "s1" ∅) !! SessionManager.SESSION_ID_NAME = Some "s1" ∧
  SessionManager.__get_session_id (known_client "s1" ∅)
  = (Ok "s1", known_client "s1" ∅) ∧
  ∃ l,
    redis_log (calls [Set_ "a" (PyInt 1); Get "a" PyNone; Delete ["a"]]
                     (known_client "s1" ∅)).2
    = redis_log (known_client "s1" ∅) ++ l ∧
    Forall (λ c, cmd_name c = "s1") l ∧
    uuids_drawn (calls [Set_ "a" (PyInt 1); Get "a" PyNone; Delete ["a"]]
                       (known_client "s1" ∅)).2
    = uuids_drawn (known_client "s1" ∅) ∧
    response_cookies (calls [Set_ "a" (PyInt 1); Get "a" PyNone; Delete ["a"]]
                            (known_client "s1" ∅)).2
    = response_cookies (known_client "s1" ∅).
Proof.
  split; [reflexivity |].
  apply (known_client_keeps_identifier
           [Set_ "a" (PyInt 1); Get "a" PyNone; Delete ["a"]] "s1"
           (known_client "s1" ∅)).
  reflexivity.
Defined.

(** C4 on the first request of a new client. *)
Lemma first_visit_reads_witness :
  Forall (λ o, reads o = true) [Get "a" (PyInt 7); Contains "a"; Keys] ∧
  [Get "a" (PyInt 7); Contains "a"; Keys] ≠ [] ∧
  request_cookies blank_world !! SessionManager.SESSION_ID_NAME = None ∧
  (∀ n, (uuids_drawn blank_world ≤ n)%nat →
        server blank_world !! @uuid4 sample_externals n = None) ∧
  ∃ w' kwargs,
    calls [Get "a" (PyInt 7); Contains "a"; Keys] blank_world
    = ([Ok (Value (PyInt 7)); Ok (Truth false); Ok (Names [])], w') ∧
    server w' = server blank_world ∧
    redis_log w' = [GET "uuid-0"; GET "uuid-1"; GET "uuid-2"] ∧
    response_cookies w' !! SessionManager.SESSION_ID_NAME = Some ("uuid-2", kwargs).
Proof.
  assert (Forall (λ o : op, reads o = true) [Get "a" (PyInt 7); Contains "a"; Keys])
    as Hr by (repeat constructor).
  assert ([Get "a" (PyInt 7); Contains "a"; Keys] ≠ []) as Hne by discriminate.
  assert (∀ n, (uuids_drawn blank_world ≤ n)%nat →
               server blank_world !! @uuid4 sample_externals n = None) as Hnew
    by (intros n _; reflexivity).
  split; [exact Hr |]. split; [exact Hne |]. split; [reflexivity |].
  split; [exact Hnew |].
  exact (first_visit_reads (H := sample_externals)
           [Get "a" (PyInt 7); Contains "a"; Keys] blank_world
           Hr Hne eq_refl Hnew).
Defined.

(** C6 on a known client. *)
Lemma reads_leave_the_store_witness :
  Forall (λ o, reads o = true) [Get "a" PyNone; Keys; Contains "a"; Get "b" PyNone] ∧
  ∃ l,
    server (calls [Get "a" PyNone; Keys; Contains "a"; Get "b" PyNone]
                  (known_client "s1" {["a" := PyInt 1]})).2
    = server (known_client "s1" {["a" := PyInt 1]}) ∧
    redis_log (calls [Get "a" PyNone; Keys; Contains "a"; Get "b" PyNone]
                     (known_client "s1" {["a" := PyInt 1]})).2
    = redis_log (known_client "s1" {["a" := PyInt 1]}) ++ l ∧
    Forall (λ c, is_GET c = true) l.
Proof.
  assert (Forall (λ o : op, reads o = true)
            [Get "a" PyNone; Keys; Contains "a"; Get "b" PyNone]) as Hr
    by (repeat constructor).
  split; [exact Hr |].
  exact (reads_leave_the_store _ (known_client "s1" {["a" := PyInt 1]}) Hr).
Defined.

(** C8 on an application that sets both selectors. *)
Lemma connection_arguments_witness :
  dataset (configured_world ∅) = None ∧
  ∃ w' kwargs,
    SessionManager.__setup_dataset (configured_world ∅) = (Ok tt, w') ∧
    dataset w' = Some (Redis kwargs) ∧
    kwargs !! "db_sessions" = None ∧
    kwargs !! "db_notifications" = None ∧
    kwargs !! "db"
    = Some (dict_get (configured "pycket_redis" (configured_world ∅))
                     "db_sessions" (PyInt 0)) ∧
    ∀ k, k ∉ ["db_sessions"; "db_notifications"; "db"] →
         kwargs !! k = configured "pycket_redis" (configured_world ∅) !! k.
Proof.
  split; [reflexivity |].
  exact (connection_arguments (configured_world ∅) eq_refl).
Defined.

(** C9 on the first [set] of a new client. *)
Lemma write_is_load_change_save_witness :
  change_of (Set_ "a" (PyInt 1)) = Some (SessionManager.set_change "a" (PyInt 1)) ∧
  loaded blank_world = Ok ∅ ∧
  SessionManager.set_change "a" (PyInt 1) ∅ = Ok (<["a" := PyInt 1]> ∅) ∧
  ∃ id_load id_save w',
    call (Set_ "a" (PyInt 1)) blank_world = (Ok Done, w') ∧
    redis_log w'
    = redis_log blank_world
      ++ [GET id_load;
          SET id_save (@pickle_dumps sample_externals (<["a" := PyInt 1]> ∅));
          EXPIRE id_save SessionManager.EXPIRE_SECONDS] ∧
    server w'
    = <[id_save := Record_ (@pickle_dumps sample_externals (<["a" := PyInt 1]> ∅))
                           (Some SessionManager.EXPIRE_SECONDS)]> (server blank_world) ∧
    match request_cookies blank_world !! SessionManager.SESSION_ID_NAME with
    | Some session_id => id_load = session_id ∧ id_save = session_id
    | None =>
        id_load = @uuid4 sample_externals (uuids_drawn blank_world) ∧
        id_save = @uuid4 sample_externals (S (uuids_drawn blank_world))
    end.
Proof.
  split; [reflexivity |]. split; [reflexivity |]. split; [reflexivity |].
  exact (write_is_load_change_save (H := sample_externals)
           (Set_ "a" (PyInt 1)) (SessionManager.set_change "a" (PyInt 1))
           ∅ (<["a" := PyInt 1]> ∅) blank_world eq_refl eq_refl eq_refl).
Defined.

(** C10 on the first request to an application that configures both
    dictionaries. *)
Lemma settings_are_updated_in_place_witness :
  settings (call (Get "a" PyNone) (configured_world ∅)).2
  = settings (configured_world ∅) ∧
  updated_in_place (configured_world ∅) (call (Get "a" PyNone) (configured_world ∅)).2 ∧
  (has_key 1%positive "expires" (call (Get "a" PyNone) (configured_world ∅)).2 ∧
   has_key 1%positive "expires_days" (call (Get "a" PyNone) (configured_world ∅)).2) ∧
  has_key 2%positive "db" (call (Get "a" PyNone) (configured_world ∅)).2.
Proof.
  exact (settings_are_updated_in_place (Get "a" PyNone) (configured_world ∅)).
Defined.

(** * More about the module *)

(** ** Calls that raise *)

Section Failures.
Context `{Externals}.

(** A call ends in the world after the load, or it saves a changed session
    and returns. *)
Lemma call_ends (o : op) (w : world) :
  ∃ w1,
    SessionManager.__get_session_from_db w = (loaded w, w1) ∧
    ((call o w).2 = w1 ∨
     ∃ session', (call o w).1 = Ok Done ∧
                 (call o w).2 = (SessionManager.__set_session_in_db session' w1).2).
Proof.
  destruct (get_session_from_db_runs w) as (w1 & E & _).
  exists w1. split; [exact E |]. rewrite call_unfold, E.
  destruct (loaded w) as [session | e]; [| by left].
  unfold after_load. destruct (change_of o) as [change |].
  - destruct (change session) as [session' | e]; [| by left].
    right. exists session'.
    by destruct (set_session_in_db_runs session' w1) as (w' & -> & _).
  - left. destruct o; try done. cbn. by destruct (is_None _).
Qed.

(** X1.  A call that raises has written nothing: the store is as before
    and Redis has seen the [GET] of the load and no more.  So [set] and
    [delete] either save the whole changed session or nothing. *)
Theorem failed_call_writes_nothing (o : op) (e : exn) (w : world) :
  (call o w).1 = Raise e →
  server (call o w).2 = server w ∧
  redis_log (call o w).2 = redis_log w ++ [GET (resolved w)].
Proof.
  intros Hr.
  destruct (call_ends o w) as (w1 & E & [-> | (session' & Hok & _)]).
  - destruct (get_session_from_db_runs w) as (w1' & E' & Hs & Hl & _).
    rewrite E in E'. injection E' as <-. done.
  - by rewrite Hok in Hr.
Qed.

(** An entry that does not unpickle makes every call raise. *)
Lemma corrupt_call (o : op) (w : world) :
  stored_session w (resolved w) = None →
  (call o w).1 = Raise UnpicklingError.
Proof.
  intros Hs. rewrite call_unfold.
  destruct (get_session_from_db_runs w) as (w1 & -> & _).
  unfold loaded. by rewrite Hs.
Qed.

(** X2.  When the entry of the client does not unpickle, every call of
    the request raises [UnpicklingError], [set] and [delete] too, and the
    entry stays as it is: the module never replaces a session it cannot
    read. *)
Theorem corrupt_session_stays (os : list op) (session_id : string) (w : world) :
  request_cookies w !! SessionManager.SESSION_ID_NAME = Some session_id →
  stored_session w session_id = None →
  (calls os w).1 = replicate (length os) (Raise UnpicklingError) ∧
  server (calls os w).2 = server w.
Proof.
  revert w. induction os as [| o os IH]; intros w Hc Hs; [done |].
  assert (stored_session w (resolved w) = None) as Hs'
    by (by rewrite (resolved_known w session_id Hc)).
  pose proof (corrupt_call o w Hs') as Hr.
  destruct (failed_call_writes_nothing o _ w Hr) as [Hsv _].
  pose proof (keeps_request_cookies o w) as Hck. unfold keeps in Hck.
  cbn. destruct (call o w) as [r w1]. cbn in *.
  destruct (IH w1) as [IH1 IH2].
  { by rewrite Hck. }
  { unfold stored_session in *. by rewrite Hsv. }
  destruct (calls os w1) as [rs w2]. cbn in *.
  split; [by rewrite Hr, IH1 | congruence].
Qed.
End Failures.

(** ** One client among others *)

Section Isolation.
Context `{Externals}.

Lemma call_known_server (o : op) (session_id : string) (w : world) :
  request_cookies w !! SessionManager.SESSION_ID_NAME = Some session_id →
  ∀ other, other ≠ session_id → server (call o w).2 !! other = server w !! other.
Proof.
  intros Hc other Hne.
  destruct (call_ends o w) as (w1 & E & Hend).
  destruct (get_session_from_db_runs w) as (w1' & E' & Hs & _ & Hc1 & _).
  rewrite E in E'. injection E' as <-.
  destruct Hend as [-> | (session' & _ & ->)]; [by rewrite Hs |].
  destruct (set_session_in_db_runs session' w1) as (w' & -> & Hs' & _).
  cbn. rewrite Hs', (resolved_known w1 session_id) by congruence.
  by rewrite lookup_insert_ne, Hs.
Qed.

(** X3.  The calls of a request that carries the cookie change no entry
    but the one of its identifier: the sessions of other clients keep
    their value and their time to live. *)
Theorem other_sessions_untouched (os : list op) (session_id other : string) (w : world) :
  request_cookies w !! SessionManager.SESSION_ID_NAME = Some session_id →
  other ≠ session_id →
  server (calls os w).2 !! other = server w !! other.
Proof.
  intros Hc Hne. revert w Hc. induction os as [| o os IH]; intros w Hc; [done |].
  pose proof (call_known_server o session_id w Hc other Hne) as H1.
  pose proof (keeps_request_cookies o w) as Hck. unfold keeps in Hck.
  cbn. destruct (call o w) as [r w1]. cbn in *.
  specialize (IH w1). destruct (calls os w1) as [rs w2]. cbn in *.
  rewrite IH by (by rewrite Hck). exact H1.
Qed.
End Isolation.

(** ** A manager that has its client *)

Section Settled.
Context `{Externals}.

Lemma setup_dataset_settled (client : redis_client) (w : world) :
  dataset w = Some client → SessionManager.__setup_dataset w = (Ok tt, w).
Proof.
  intros E. unfold SessionManager.__setup_dataset.
  erewrite bind_Ok by reflexivity. cbn. by rewrite E.
Qed.

Lemma get_session_from_db_settled (session_id : string) (client : redis_client)
    (w : world) :
  request_cookies w !! SessionManager.SESSION_ID_NAME = Some session_id →
  dataset w = Some client →
  SessionManager.__get_session_from_db w
  = (loaded w, with_redis_log (redis_log w ++ [GET session_id]) w).
Proof.
  intros Hc Hd. unfold SessionManager.__get_session_from_db.
  erewrite bind_Ok by (by apply get_session_id_known).
  erewrite bind_Ok by (by eapply setup_dataset_settled).
  erewrite bind_Ok by reflexivity.
  unfold loaded, stored_session, SessionManager.__to_dict.
  rewrite (resolved_known w session_id Hc). cbn.
  destruct (server w !! session_id) as [r |]; cbn; [| done].
  by destruct (pickle_loads (value r)).
Qed.

Lemma set_session_in_db_settled (session : dict) (session_id : string)
    (client : redis_client) (w : world) :
  request_cookies w !! SessionManager.SESSION_ID_NAME = Some session_id →
  dataset w = Some client →
  ∃ s l, SessionManager.__set_session_in_db session w
         = (Ok tt, with_server s (with_redis_log l w)).
Proof.
  intros Hc Hd. unfold SessionManager.__set_session_in_db.
  erewrite bind_Ok by (by apply get_session_id_known).
  erewrite bind_Ok by (by eapply setup_dataset_settled).
  erewrite bind_Ok by reflexivity.
  eexists _, _. reflexivity.
Qed.

Lemma call_settled (o : op) (session_id : string) (client : redis_client) (w : world) :
  request_cookies w !! SessionManager.SESSION_ID_NAME = Some session_id →
  dataset w = Some client →
  ∃ s l, (call o w).2 = with_server s (with_redis_log l w).
Proof.
  intros Hc Hd.
  destruct (call_ends o w) as (w1 & E & Hend).
  rewrite (get_session_from_db_settled session_id client w Hc Hd) in E.
  injection E as <-.
  destruct Hend as [-> | (session' & _ & ->)].
  - exists (server w), (redis_log w ++ [GET session_id]). by destruct w.
  - destruct (set_session_in_db_settled session' session_id client
                (with_redis_log (redis_log w ++ [GET session_id]) w) Hc Hd)
      as (s & l & ->).
    by exists s, l.
Qed.

(** X4.  Once the manager has its Redis client, the calls of a request
    that carries the cookie reach nothing but Redis: the settings and
    their dictionaries are not looked up again, the client is kept, no
    identifier is drawn and no cookie is set. *)
Theorem settled_manager_touches_redis_only (os : list op) (session_id : string)
    (client : redis_client) (w : world) :
  request_cookies w !! SessionManager.SESSION_ID_NAME = Some session_id →
  dataset w = Some client →
  settings (calls os w).2 = settings w ∧
  heap (calls os w).2 = heap w ∧
  dataset (calls os w).2 = Some client ∧
  response_cookies (calls os w).2 = response_cookies w ∧
  uuids_drawn (calls os w).2 = uuids_drawn w.
Proof.
  revert w. induction os as [| o os IH]; intros w Hc Hd; [done |].
  destruct (call_settled o session_id client w Hc Hd) as (s & l & E).
  cbn. destruct (call o w) as [r w1]. cbn in E. subst w1.
  destruct (IH (with_server s (with_redis_log l w))) as (H1 & H2 & H3 & H4 & H5);
    [done | done |].
  destruct (calls os _) as [rs w2]. cbn in *. done.
Qed.
End Settled.

(** ** Reading after reading and after writing *)

Section Reading.
Context `{Externals}.

Lemma dict_keys_NoDup (d : dict) : NoDup (dict_keys d).
Proof. apply NoDup_fst_map_to_list. Qed.

Lemma dict_contains_keys (d : dict) (k : string) :
  dict_contains d k = true ↔ k ∈ dict_keys d.
Proof.
  rewrite elem_of_dict_keys, is_Some_alt. unfold dict_contains.
  destruct (d !! k); split; done.
Qed.

Lemma keys_runs (w : world) :
  (call Keys w).1
  = match loaded w with
    | Ok session => Ok (Names (dict_keys session))
    | Raise e => Raise e
    end.
Proof.
  destruct (read_runs Keys w eq_refl) as (w' & -> & _).
  by destruct (loaded w).
Qed.

(** A read by a client with the cookie leaves what the next call loads. *)
Lemma read_keeps_loaded (o : op) (session_id : string) (w : world) :
  reads o = true →
  request_cookies w !! SessionManager.SESSION_ID_NAME = Some session_id →
  request_cookies (call o w).2 !! SessionManager.SESSION_ID_NAME = Some session_id ∧
  loaded (call o w).2 = loaded w.
Proof.
  intros Ho Hc. destruct (read_runs o w Ho) as (w' & -> & Hs & _ & Hc' & _).
  cbn. split; [by rewrite Hc' |].
  unfold loaded, stored_session, resolved. by rewrite Hc', Hs, Hc.
Qed.

(** X5.  In a request with the cookie, the ways to read agree on a name:
    [in] is true exactly when the name is among [keys()], which lists no
    name twice; when [in] is false [get] returns its default and [s[k]]
    raises [KeyError]; when [in] is true [s[k]] returns what [get]
    returns, unless that is [None], for which it raises. *)
Theorem reads_agree (k : string) (d : pyval) (session_id : string)
    (session : dict) (w : world) :
  request_cookies w !! SessionManager.SESSION_ID_NAME = Some session_id →
  stored_session w session_id = Some session →
  ∃ b ks v r,
    (calls [Contains k; Keys; Get k d; Getitem k] w).1
    = [Ok (Truth b); Ok (Names ks); Ok (Value v); r] ∧
    NoDup ks ∧
    (b = true ↔ k ∈ ks) ∧
    (b = false →
     v = d ∧ r = Raise (KeyError (k +:+ " not found in dataset"))) ∧
    (b = true →
     r = if is_None v
         then Raise (KeyError (k +:+ " not found in dataset"))
         else Ok (Value v)).
Proof.
  intros Hc Hs.
  assert (loaded w = Ok session) as Hl
    by (unfold loaded; by rewrite (resolved_known w session_id Hc), Hs).
  pose proof (contains_runs k w) as R1. rewrite Hl in R1.
  destruct (read_keeps_loaded (Contains k) session_id w eq_refl Hc) as [Hc1 Hl1].
  cbn [calls]. destruct (call (Contains k) w) as [r1 w1]. cbn in R1, Hc1, Hl1.
  pose proof (keys_runs w1) as R2. rewrite Hl1, Hl in R2.
  destruct (read_keeps_loaded Keys session_id w1 eq_refl Hc1) as [Hc2 Hl2].
  destruct (call Keys w1) as [r2 w2]. cbn in R2, Hc2, Hl2.
  pose proof (get_runs k d w2) as R3. rewrite Hl2, Hl1, Hl in R3.
  destruct (read_keeps_loaded (Get k d) session_id w2 eq_refl Hc2) as [Hc3 Hl3].
  destruct (call (Get k d) w2) as [r3 w3]. cbn in R3, Hc3, Hl3.
  pose proof (getitem_runs k w3) as R4. rewrite Hl3, Hl2, Hl1, Hl in R4.
  destruct (call (Getitem k) w3) as [r4 w4]. cbn in R4. subst.
  eexists _, _, _, _. split; [reflexivity |].
  split; [apply dict_keys_NoDup |].
  split; [apply dict_contains_keys |].
  unfold dict_contains, dict_get.
  destruct (session !! k) as [v |]; [| by split].
  split; [done |]. intros _. by destruct v.
Qed.
End Reading.

(** ** What a write leaves for the reads after it *)

Section Writing.
Context `{Externals}.

Hypothesis pickle_round_trip : ∀ d, pickle_loads (pickle_dumps d) = Some d.

Lemma write_known (o : op) (change : dict → result dict)
    (session session' : dict) (session_id : string) (w : world) :
  request_cookies w !! SessionManager.SESSION_ID_NAME = Some session_id →
  stored_session w session_id = Some session →
  change_of o = Some change →
  change session = Ok session' →
  ∃ w',
    call o w = (Ok Done, w') ∧
    request_cookies w' !! SessionManager.SESSION_ID_NAME = Some session_id ∧
    loaded w' = Ok session' ∧
    server w' !! session_id
    = Some (Record_ (pickle_dumps session') (Some SessionManager.EXPIRE_SECONDS)) ∧
    redis_log w'
    = redis_log w ++ [GET session_id;
                      SET session_id (pickle_dumps session');
                      EXPIRE session_id SessionManager.EXPIRE_SECONDS].
Proof.
  intros Hc Hs Ho Hch.
  destruct (write_runs o change session session' w Ho
              (loaded_known _ _ _ Hc Hs) Hch)
    as (w1 & w' & E & Hc1 & _ & Hsv & Hlog & Hc' & _).
  rewrite (resolved_known w session_id Hc),
    (resolved_known w1 session_id) in * by congruence.
  exists w'. split; [exact E |].
  assert (request_cookies w' !! SessionManager.SESSION_ID_NAME = Some session_id)
    as Hck by congruence.
  split; [exact Hck |]. split.
  - apply (loaded_known session_id); [exact Hck |].
    unfold stored_session. rewrite Hsv, lookup_insert_eq. cbn.
    apply pickle_round_trip.
  - by rewrite Hsv, lookup_insert_eq.
Qed.

(** X6.  [set] of one name, in a request with the cookie: the name is in
    the session afterwards, and every other name reads as it read
    before, through [get] and through [in]. *)
Theorem set_changes_one_name (k k' : string) (v d : pyval)
    (session_id : string) (session : dict) (w : world) :
  request_cookies w !! SessionManager.SESSION_ID_NAME = Some session_id →
  stored_session w session_id = Some session →
  k' ≠ k →
  ∃ w',
    call (Set_ k v) w = (Ok Done, w') ∧
    (call (Contains k) w').1 = Ok (Truth true) ∧
    (call (Get k' d) w').1 = (call (Get k' d) w).1 ∧
    (call (Contains k') w').1 = (call (Contains k') w).1.
Proof.
  intros Hc Hs Hne.
  destruct (write_known (Set_ k v) _ session (<[k := v]> session) session_id w
              Hc Hs eq_refl eq_refl) as (w' & E & _ & Hl' & _).
  exists w'. split; [exact E |].
  rewrite !get_runs, !contains_runs, Hl', (loaded_known _ _ _ Hc Hs).
  unfold dict_contains, dict_get.
  by rewrite lookup_insert_eq, lookup_insert_ne.
Qed.

(** X7.  [delete] of names that are all different, in a request with the
    cookie: it succeeds whether the names are in the session or not; the
    names read as missing afterwards and every other name reads as
    before; and the entry is written and given [EXPIRE_SECONDS] to live,
    also when no name was there. *)
Theorem delete_of_distinct_names (names : list string) (k : string) (d : pyval)
    (session_id : string) (session : dict) (w : world) :
  request_cookies w !! SessionManager.SESSION_ID_NAME = Some session_id →
  stored_session w session_id = Some session →
  NoDup names →
  ∃ w' session',
    call (Delete names) w = (Ok Done, w') ∧
    server w' !! session_id
    = Some (Record_ (pickle_dumps session') (Some SessionManager.EXPIRE_SECONDS)) ∧
    redis_log w'
    = redis_log w ++ [GET session_id;
                      SET session_id (pickle_dumps session');
                      EXPIRE session_id SessionManager.EXPIRE_SECONDS] ∧
    (call (Get k d) w').1
    = (if decide (k ∈ names) then Ok (Value d) else (call (Get k d) w).1) ∧
    (call (Contains k) w').1
    = (if decide (k ∈ names) then Ok (Truth false) else (call (Contains k) w).1).
Proof.
  intros Hc Hs Hnd.
  destruct (write_known (Delete names) _ session (without names session) session_id w
              Hc Hs eq_refl (delete_change_distinct names session Hnd))
    as (w' & E & _ & Hl' & Hsv & Hlog).
  exists w', (without names session).
  split; [exact E |]. split; [exact Hsv |]. split; [exact Hlog |].
  rewrite !get_runs, !contains_runs, Hl', (loaded_known _ _ _ Hc Hs).
  unfold dict_contains, dict_get. rewrite lookup_without.
  by destruct (decide (k ∈ names)).
Qed.
End Writing.

(** ** Writes of a client without the cookie *)

Section FirstVisit.
Context `{Externals}.

Hypothesis pickle_round_trip : ∀ d, pickle_loads (pickle_dumps d) = Some d.

(** [uuid4] does not repeat itself. *)
Hypothesis uuid4_inj : ∀ n m, uuid4 n = uuid4 m → n = m.

Lemma calls_app (os1 os2 : list op) (w : world) :
  calls (os1 ++ os2) w
  = ((calls os1 w).1 ++ (calls os2 (calls os1 w).2).1, (calls os2 (calls os1 w).2).2).
Proof.
  revert w. induction os1 as [| o os1 IH]; intros w; cbn.
  - by destruct (calls os2 w).
  - destruct (call o w) as [r w1]. rewrite IH.
    by destruct (calls os1 w1).
Qed.

(** The first [set] of a visit: the session is saved with the one name,
    under the second identifier drawn, and that is the one the cookie of
    the response gets. *)
Lemma first_set_runs (name : string) (value : pyval) (w : world) :
  request_cookies w !! SessionManager.SESSION_ID_NAME = None →
  (∀ n, (uuids_drawn w ≤ n)%nat → server w !! uuid4 n = None) →
  ∃ w' kwargs,
    call (Set_ name value) w = (Ok Done, w') ∧
    request_cookies w' = request_cookies w ∧
    uuids_drawn w' = S (S (uuids_drawn w)) ∧
    server w'
    = <[uuid4 (S (uuids_drawn w)) :=
          Record_ (pickle_dumps (<[name := value]> ∅))
                  (Some SessionManager.EXPIRE_SECONDS)]> (server w) ∧
    response_cookies w' !! SessionManager.SESSION_ID_NAME
    = Some (uuid4 (S (uuids_drawn w)), kwargs).
Proof.
  intros Hc Hnew.
  assert (loaded w = Ok ∅) as Hl.
  { unfold loaded, stored_session, resolved. by rewrite Hc, Hnew. }
  destruct (write_runs (Set_ name value) _ ∅ (<[name := value]> ∅) w
              eq_refl Hl eq_refl)
    as (w1 & w' & E & Hc1 & Hr1 & Hsv & _ & Hc' & Hr').
  unfold resolution in Hr1, Hr'. rewrite Hc in Hr1. rewrite Hc1, Hc in Hr'.
  destruct Hr1 as [Hu1 _]. destruct Hr' as (Hu' & kwargs & Hk).
  assert (resolved w1 = uuid4 (S (uuids_drawn w))) as Hres
    by (unfold resolved; by rewrite Hc1, Hc, Hu1).
  exists w', kwargs. rewrite Hres in Hsv. rewrite Hu1 in Hk, Hu'.
  done.
Qed.

Lemma first_sets_run (writes : list (string * pyval)) (w : world) :
  request_cookies w !! SessionManager.SESSION_ID_NAME = None →
  (∀ n, (uuids_drawn w ≤ n)%nat → server w !! uuid4 n = None) →
  ∃ w',
    calls (uncurry Set_ <$> writes) w = (replicate (length writes) (Ok Done), w') ∧
    request_cookies w' !! SessionManager.SESSION_ID_NAME = None ∧
    (∀ n, (uuids_drawn w' ≤ n)%nat → server w' !! uuid4 n = None).
Proof.
  revert w. induction writes as [| [name value] writes IH]; intros w Hc Hnew.
  - by exists w.
  - destruct (first_set_runs name value w Hc Hnew)
      as (w1 & kwargs & E & Hc1 & Hu1 & Hs1 & _).
    destruct (IH w1) as (w' & E' & Hc' & Hnew').
    { by rewrite Hc1. }
    { intros n Hn. rewrite Hs1, lookup_insert_ne.
      - apply Hnew. lia.
      - intros Heq%uuid4_inj. lia. }
    exists w'. rewrite fmap_cons.
    change (uncurry Set_ (name, value)) with (Set_ name value).
    cbn [calls length replicate]. by rewrite E, E'.
Qed.

(** X8.  A client without the cookie makes several [set]s in its first
    request.  All succeed, but each starts from an empty session under a
    new identifier: the cookie the response ends with names a session
    that holds the last [set] and nothing else.  A later request with
    that cookie reads the last value under its name and the default under
    every other name, the earlier ones included. *)
Theorem first_visit_keeps_last_write (before : list (string * pyval))
    (name : string) (value : pyval) (k : string) (d : pyval) (w : world) :
  request_cookies w !! SessionManager.SESSION_ID_NAME = None →
  (∀ n, (uuids_drawn w ≤ n)%nat → server w !! uuid4 n = None) →
  ∃ w' session_id kwargs,
    calls (uncurry Set_ <$> (before ++ [(name, value)])) w
    = (replicate (length (before ++ [(name, value)])) (Ok Done), w') ∧
    response_cookies w' !! SessionManager.SESSION_ID_NAME = Some (session_id, kwargs) ∧
    (call (Get k d) (new_request (session_cookie session_id) w')).1
    = Ok (Value (if decide (k = name) then value else d)).
Proof.
  intros Hc Hnew.
  destruct (first_sets_run before w Hc Hnew) as (w1 & E1 & Hc1 & Hnew1).
  destruct (first_set_runs name value w1 Hc1 Hnew1)
    as (w' & kwargs & E & _ & _ & Hs & Hk).
  exists w', (uuid4 (S (uuids_drawn w1))), kwargs.
  split; [| split; [exact Hk |]].
  - rewrite fmap_app, calls_app, E1. cbn [fst snd].
    rewrite fmap_cons, fmap_nil.
    change (uncurry Set_ (name, value)) with (Set_ name value).
    cbn [calls]. rewrite E. cbn [fst snd].
    by rewrite length_app, replicate_add.
  - rewrite get_runs.
    rewrite (loaded_known (uuid4 (S (uuids_drawn w1))) (<[name := value]> ∅)).
    + unfold dict_get. destruct (decide (k = name)) as [-> | Hne].
      * by rewrite lookup_insert_eq.
      * by rewrite lookup_insert_ne, lookup_empty.
    + apply lookup_singleton_eq.
    + unfold stored_session. cbn. rewrite Hs, lookup_insert_eq. cbn.
      apply pickle_round_trip.
Qed.
End FirstVisit.

(** ** What the settings give *)

Section Settings.
Context `{Externals}.

(** [d.setdefault(k, v)] as a function of the dictionary. *)
Definition dict_setdefault (d : dict) (k : string) (v : pyval) : dict :=
  match d !! k with
  | Some _ => d
  | None => <[k := v]> d
  end.

Lemma lookup_dict_setdefault_eq (d : dict) (k : string) (v : pyval) :
  dict_setdefault d k v !! k = Some (dict_get d k v).
Proof.
  unfold dict_setdefault, dict_get.
  destruct (d !! k) eqn:E; [done | apply lookup_insert_eq].
Qed.

Lemma lookup_dict_setdefault_ne (d : dict) (k k' : string) (v : pyval) :
  k ≠ k' → dict_setdefault d k v !! k' = d !! k'.
Proof.
  intros Hne. unfold dict_setdefault.
  destruct (d !! k); [done | by apply lookup_insert_ne].
Qed.

Lemma obj_setdefault_runs (l : loc) (k : string) (v : pyval) (w : world) :
  ∃ h,
    obj_setdefault l k v w = (Ok tt, with_heap h w) ∧
    default ∅ (h !! l) = dict_setdefault (default ∅ (heap w !! l)) k v.
Proof.
  unfold obj_setdefault, dict_setdefault. erewrite bind_Ok by reflexivity.
  destruct (default ∅ (heap w !! l) !! k) eqn:Ek.
  - exists (heap w). split; [by destruct w | done].
  - eexists. split; [reflexivity |]. by rewrite lookup_insert_eq.
Qed.

Lemma cookie_settings_gives (w : world) :
  ∃ l h,
    SessionManager.__cookie_settings w = (Ok l, with_heap h w) ∧
    default ∅ (h !! l)
    = dict_setdefault
        (dict_setdefault (configured "pycket_cookies" w) "expires" PyNone)
        "expires_days" PyNone.
Proof.
  unfold SessionManager.__cookie_settings, configured.
  destruct (settings w !! "pycket_cookies") as [l |] eqn:E.
  - erewrite bind_Ok by (rewrite settings_get_runs, E; reflexivity).
    destruct (obj_setdefault_runs l "expires" PyNone w) as (h1 & E1 & H1).
    erewrite bind_Ok by exact E1.
    destruct (obj_setdefault_runs l "expires_days" PyNone (with_heap h1 w))
      as (h2 & E2 & H2).
    erewrite bind_Ok by exact E2.
    exists l, h2. split; [done |]. cbn in H2. by rewrite H2, H1.
  - erewrite bind_Ok by (rewrite settings_get_runs, E; reflexivity).
    set (l := fresh (dom (heap w))).
    destruct (obj_setdefault_runs l "expires" PyNone
                (with_heap (<[l := ∅]> (heap w)) w)) as (h1 & E1 & H1).
    erewrite bind_Ok by exact E1.
    destruct (obj_setdefault_runs l "expires_days" PyNone
                (with_heap h1 (with_heap (<[l := ∅]> (heap w)) w)))
      as (h2 & E2 & H2).
    erewrite bind_Ok by exact E2.
    exists l, h2. split; [done |]. cbn in H1, H2.
    rewrite lookup_insert_eq in H1. by rewrite H2, H1.
Qed.

(** X9.  The cookie made for a client without one carries the configured
    ['pycket_cookies'] as its attributes, every item as configured, with
    ['expires'] and ['expires_days'] set to [None] where the application
    does not set them: what the application sets overrides the default.
    Without ['pycket_cookies'] the two are its only attributes. *)
Theorem minted_cookie_attributes (w : world) :
  request_cookies w !! SessionManager.SESSION_ID_NAME = None →
  ∃ w' kwargs,
    SessionManager.__get_session_id w = (Ok (uuid4 (uuids_drawn w)), w') ∧
    response_cookies w'
    = <[SessionManager.SESSION_ID_NAME := (uuid4 (uuids_drawn w), kwargs)]>
        (response_cookies w) ∧
    kwargs !! "expires"
    = Some (dict_get (configured "pycket_cookies" w) "expires" PyNone) ∧
    kwargs !! "expires_days"
    = Some (dict_get (configured "pycket_cookies" w) "expires_days" PyNone) ∧
    ∀ k, k ∉ ["expires"; "expires_days"] →
         kwargs !! k = configured "pycket_cookies" w !! k.
Proof.
  intros Hc. unfold SessionManager.__get_session_id.
  erewrite bind_Ok by reflexivity. cbn. rewrite Hc.
  unfold SessionManager.__create_session_id.
  erewrite bind_Ok by reflexivity.
  set (w1 := with_uuids_drawn _ w).
  destruct (cookie_settings_gives w1) as (l & h & E & Hk).
  erewrite bind_Ok by exact E.
  erewrite bind_Ok by reflexivity.
  erewrite bind_Ok by reflexivity.
  eexists _, _. split; [reflexivity |]. split; [reflexivity |].
  cbn. rewrite Hk.
  change (configured "pycket_cookies" w1) with (configured "pycket_cookies" w).
  set (cfg := configured "pycket_cookies" w).
  split; [by rewrite lookup_dict_setdefault_ne, lookup_dict_setdefault_eq |].
  split.
  - rewrite lookup_dict_setdefault_eq. unfold dict_get at 1.
    by rewrite lookup_dict_setdefault_ne.
  - intros k Hk'.
    rewrite !lookup_dict_setdefault_ne; [done | |];
      intros <-; apply Hk'; set_solver.
Qed.
End Settings.

(** ** One application, several managers *)

Section Managers.
Context `{Externals}.

(** ['db'] written into the configured dictionary does not change the
    arguments made of it. *)
Lemma connection_args_again (cfg : dict) :
  connection_args
    (<["db" := dict_get cfg SessionManager.DB_SETTING (PyInt SessionManager.DB)]> cfg)
  = connection_args cfg.
Proof.
  unfold connection_args, dict_get.
  rewrite lookup_insert_ne by done. by rewrite insert_insert_eq.
Qed.

(** The configured Redis dictionary after the first look-up. *)
Lemma setup_dataset_configures (w : world) :
  dataset w = None →
  settings (SessionManager.__setup_dataset w).2 = settings w ∧
  configured "pycket_redis" (SessionManager.__setup_dataset w).2
  = match settings w !! "pycket_redis" with
    | Some _ =>
        <["db" := dict_get (configured "pycket_redis" w)
                           SessionManager.DB_SETTING (PyInt SessionManager.DB)]>
          (configured "pycket_redis" w)
    | None => ∅
    end.
Proof.
  intros Hd.
  pose proof (setup_dataset_frame w) as K. unfold keeps in K.
  assert (settings (SessionManager.__setup_dataset w).2 = settings w) as Hset
    by (by simplify_eq).
  split; [exact Hset |]. clear K.
  unfold configured at 1. rewrite Hset.
  destruct (settings w !! "pycket_redis") as [lr |] eqn:Er; [| done].
  unfold SessionManager.__setup_dataset.
  erewrite bind_Ok by reflexivity. cbn. rewrite Hd.
  unfold SessionManager.__redis_settings.
  erewrite bind_Ok; cycle 1.
  { erewrite bind_Ok by (rewrite settings_get_runs, Er; reflexivity).
    erewrite bind_Ok by reflexivity.
    erewrite bind_Ok by reflexivity.
    apply clean_redis_settings_runs. }
  erewrite bind_Ok by reflexivity.
  unfold configured. rewrite Er. wsimpl.
  rewrite lookup_insert_ne.
  - by rewrite lookup_insert_eq.
  - intros Heq. eapply (is_fresh (dom (<[lr := _]> (heap w)))).
    rewrite Heq. apply elem_of_dom. rewrite lookup_insert_eq. eauto.
Qed.

(** X10.  The first manager of an application writes ['db'] into the
    shared ['pycket_redis'].  The manager of the next request, which looks
    the changed dictionary up, makes its client with the same arguments
    all the same. *)
Theorem managers_connect_alike (cookies : gmap string string) (w : world) :
  dataset w = None →
  dataset (SessionManager.__setup_dataset
             (new_request cookies (SessionManager.__setup_dataset w).2)).2
  = dataset (SessionManager.__setup_dataset w).2 ∧
  is_Some (dataset (SessionManager.__setup_dataset w).2).
Proof.
  intros Hd.
  destruct (setup_dataset_configures w Hd) as [Hset Hcfg].
  destruct (setup_dataset_new w Hd) as (w1 & E1 & Hd1).
  rewrite E1 in Hset, Hcfg |- *. cbn [snd] in *.
  destruct (setup_dataset_new (new_request cookies w1) eq_refl) as (w2 & E2 & Hd2).
  rewrite E2. cbn [snd]. rewrite Hd2, Hd1. split; [| eauto].
  do 2 f_equal.
  change (configured "pycket_redis" (new_request cookies w1))
    with (configured "pycket_redis" w1).
  rewrite Hcfg.
  destruct (settings w !! "pycket_redis") eqn:Er.
  - apply connection_args_again.
  - unfold configured. by rewrite Er.
Qed.
End Managers.

(** ** [create_mixin] and [SessionMixin]

    A handler object has attributes; the ones [create_mixin] makes hold
    manager objects.  The objects live in a store of their own, so that the
    handler and whoever got a manager from it see the same one.  [A] is
    what a manager object holds. *)

Section Mixin.
Context {A : Type}.

Record handler : Type := Handler {
  attributes : gmap string loc;
  objects : gmap loc A;
}.

(** [hasattr(self, name)]. *)
Definition hasattr (self : handler) (name : string) : bool :=
  match attributes self !! name with
  | Some _ => true
  | None => false
  end.

(** [getattr(self, name)]; nothing stands for [AttributeError]. *)
Definition getattr (self : handler) (name : string) : option loc :=
  attributes self !! name.

(** [setattr(self, name, value)]. *)
Definition setattr (self : handler) (name : string) (m : loc) : handler :=
  Handler (<[name := m]> (attributes self)) (objects self).

(** [manager_class(self)]: a new object as the class makes it.  Of the
    handler it gets, a manager keeps the reference only. *)
Definition construct (manager_class : A) (self : handler) : loc * handler :=
  let m := fresh (dom (objects self)) in
  (m, Handler (attributes self) (<[m := manager_class]> (objects self))).

Definition create_mixin (self : handler) (manager_property : string)
    (manager_class : A) : option loc * handler :=
  let self :=
    if negb (hasattr self manager_property)
    then
      let '(m, self) := construct manager_class self in
      setattr self manager_property m
    else self in
  (getattr self manager_property, self).
End Mixin.

Arguments handler A : clear implicits.

(** [SessionManager(handler)]: [__init__] keeps the handler, and [dataset]
    is the [None] of the class. *)
Definition SessionManager_new : option redis_client := None.

(** [SessionMixin.session]. *)
Definition session (self : handler (option redis_client))
    : option loc * handler (option redis_client) :=
  create_mixin self "__session_manager" SessionManager_new.

Section ThroughTheMixin.
Context `{Externals}.

(** [handler.session.<method>(...)]: the manager is fetched through the
    property, the method runs with the [dataset] of that manager as
    [self.dataset], and what it leaves there stays in the manager.
    Nothing stands for [AttributeError]. *)
Definition session_call (o : op) (self : handler (option redis_client)) (w : world)
    : option (result answer) * handler (option redis_client) * world :=
  let '(manager, self) := session self in
  match manager with
  | None => (None, self, w)
  | Some m =>
      let '(r, w') := call o (with_dataset (default None (objects self !! m)) w) in
      (Some r, Handler (attributes self) (<[m := dataset w']> (objects self)), w')
  end.

Fixpoint session_calls (os : list op) (self : handler (option redis_client)) (w : world)
    : list (option (result answer)) * handler (option redis_client) * world :=
  match os with
  | [] => ([], self, w)
  | o :: os' =>
      let '(r, self1, w1) := session_call o self w in
      let '(rs, self2, w2) := session_calls os' self1 w1 in
      (r :: rs, self2, w2)
  end.
End ThroughTheMixin.

Section MixinProperties.
Context {A : Type}.

Lemma create_mixin_attribute (self : handler A) (manager_property : string)
    (manager_class : A) :
  ∃ m,
    (create_mixin self manager_property manager_class).1 = Some m ∧
    attributes (create_mixin self manager_property manager_class).2
      !! manager_property = Some m.
Proof.
  unfold create_mixin, hasattr, getattr.
  destruct (attributes self !! manager_property) as [m |] eqn:E; cbn.
  - exists m. by rewrite E.
  - eexists. by rewrite lookup_insert_eq.
Qed.

(** X11.  [create_mixin] always returns a manager, the one the attribute
    holds from then on.  When the attribute was there, that manager is
    returned and the handler is as before, whatever the class given.
    When it was not, the manager is a new object, made by the class.
    No other attribute changes and no object that was there changes. *)
Theorem create_mixin_gives_manager (self : handler A) (manager_property : string)
    (manager_class : A) :
  ∃ m,
    (create_mixin self manager_property manager_class).1 = Some m ∧
    attributes (create_mixin self manager_property manager_class).2
      !! manager_property = Some m ∧
    match attributes self !! manager_property with
    | Some m0 =>
        m = m0 ∧ (create_mixin self manager_property manager_class).2 = self
    | None =>
        objects self !! m = None ∧
        objects (create_mixin self manager_property manager_class).2 !! m
        = Some manager_class
    end ∧
    (∀ name, name ≠ manager_property →
       attributes (create_mixin self manager_property manager_class).2 !! name
       = attributes self !! name) ∧
    (∀ l a, objects self !! l = Some a →
       objects (create_mixin self manager_property manager_class).2 !! l = Some a).
Proof.
  unfold create_mixin, hasattr, getattr.
  destruct (attributes self !! manager_property) as [m |] eqn:E; cbn.
  - exists m. by rewrite E.
  - exists (fresh (dom (objects self))). rewrite lookup_insert_eq.
    assert (objects self !! fresh (dom (objects self)) = None) as Hnew
      by (apply not_elem_of_dom, is_fresh).
    repeat split; try done.
    + apply lookup_insert_eq.
    + intros name Hne. by apply lookup_insert_ne.
    + intros l a Hl. rewrite lookup_insert_ne; [done |]. congruence.
Qed.

(** X12.  Asking again gives the same manager and changes nothing, also
    when another class is given: the class is used for the first call
    only. *)
Theorem create_mixin_again (self : handler A) (manager_property : string)
    (manager_class manager_class' : A) :
  create_mixin (create_mixin self manager_property manager_class).2
    manager_property manager_class'
  = create_mixin self manager_property manager_class.
Proof.
  destruct (create_mixin_attribute self manager_property manager_class)
    as (m & E1 & E2).
  destruct (create_mixin self manager_property manager_class) as [r self1].
  cbn in *. subst r.
  unfold create_mixin, hasattr, getattr. rewrite E2. cbn. by rewrite E2.
Qed.
End MixinProperties.

Section SessionProperty.
Context `{Externals}.

Lemma with_dataset_same (w : world) : with_dataset (dataset w) w = w.
Proof. by destruct w. Qed.

(** A call through the property, once the handler has its manager. *)
Lemma session_call_bound (o : op) (self : handler (option redis_client))
    (m : loc) (w : world) :
  attributes self !! "__session_manager" = Some m →
  objects self !! m = Some (dataset w) →
  session_call o self w
  = (Some (call o w).1,
     Handler (attributes self) (<[m := dataset (call o w).2]> (objects self)),
     (call o w).2).
Proof.
  intros E Ho. unfold session_call, session, create_mixin, hasattr, getattr.
  rewrite E. cbn. rewrite E, Ho. cbn. rewrite with_dataset_same.
  by destruct (call o w).
Qed.

Lemma session_calls_bound (os : list op) (self : handler (option redis_client))
    (m : loc) (w : world) :
  attributes self !! "__session_manager" = Some m →
  objects self !! m = Some (dataset w) →
  ∃ self',
    session_calls os self w = (Some <$> (calls os w).1, self', (calls os w).2) ∧
    attributes self' !! "__session_manager" = Some m ∧
    objects self' !! m = Some (dataset (calls os w).2).
Proof.
  revert self w. induction os as [| o os IH]; intros self w E Ho.
  - by exists self.
  - cbn [session_calls calls]. rewrite (session_call_bound o self m w E Ho).
    destruct (call o w) as [r w1]. cbn [fst snd].
    destruct (IH (Handler (attributes self) (<[m := dataset w1]> (objects self))) w1)
      as (self' & E' & Ha & Hb); [done | apply lookup_insert_eq |].
    rewrite E'. destruct (calls os w1) as [rs w2]. by exists self'.
Qed.

(** The first call through the property. *)
Lemma session_call_first (o : op) (self : handler (option redis_client)) (w : world) :
  attributes self !! "__session_manager" = None →
  ∃ self1 m,
    session_call o self w
    = (Some (call o (with_dataset None w)).1, self1, (call o (with_dataset None w)).2) ∧
    attributes self1 !! "__session_manager" = Some m ∧
    objects self1 !! m = Some (dataset (call o (with_dataset None w)).2).
Proof.
  intros E. unfold session_call, session, create_mixin, hasattr, getattr.
  rewrite E. cbn. rewrite !lookup_insert_eq. cbn.
  unfold SessionManager_new.
  destruct (call o (with_dataset None w)) as [r w1].
  eexists _, _. split; [reflexivity |]. cbn. by rewrite !lookup_insert_eq.
Qed.

(** X13.  A handler that takes its session from the property for every
    call works with one manager: the first call makes it, without a
    client, and the calls together answer and leave the world as the same
    calls made on a single new manager.  [AttributeError] never comes of
    it. *)
Theorem session_is_one_manager (o : op) (os : list op)
    (self : handler (option redis_client)) (w : world) :
  attributes self !! "__session_manager" = None →
  ∃ self' m,
    session_calls (o :: os) self w
    = (Some <$> (calls (o :: os) (with_dataset None w)).1, self',
       (calls (o :: os) (with_dataset None w)).2) ∧
    attributes self' !! "__session_manager" = Some m ∧
    objects self' !! m = Some (dataset (calls (o :: os) (with_dataset None w)).2).
Proof.
  intros E.
  destruct (session_call_first o self w E) as (self1 & m & E1 & Ha1 & Hb1).
  cbn [session_calls calls]. rewrite E1.
  destruct (call o (with_dataset None w)) as [r w1]. cbn [fst snd] in *.
  destruct (session_calls_bound os self1 m w1 Ha1 Hb1) as (self' & E' & Ha & Hb).
  rewrite E'. destruct (calls os w1) as [rs w2]. by exists self', m.
Qed.
End SessionProperty.

(** ** When [s[key]] raises *)

Section Strict.
Context `{Externals}.

(** X14.  On a session that loads, [s[key]] raises [KeyError] exactly
    when the session has no such key or holds [None] under it, and
    returns a value exactly when the session holds that value under the
    key and it is not [None]. *)
Theorem getitem_raises_exactly (key : string) (v : pyval) (session : dict) (w : world) :
  loaded w = Ok session →
  ((call (Getitem key) w).1 = Raise (KeyError (key +:+ " not found in dataset"))
   ↔ session !! key = None ∨ session !! key = Some PyNone) ∧
  ((call (Getitem key) w).1 = Ok (Value v)
   ↔ session !! key = Some v ∧ v ≠ PyNone).
Proof.
  intros Hl. rewrite getitem_runs, Hl.
  destruct (session !! key) as [[] |]; cbn; intuition congruence.
Qed.
End Strict.

(** ** The properties on sample worlds *)

(** A pickle that can fail: the stored string holds a dictionary or is
    rubbish. *)
Definition strict_externals : Externals :=
  {| raw := option dict;
     pickle_dumps := λ d, Some d;
     pickle_loads := λ r, r;
     uuid4 := λ n, "uuid-" +:+ pretty n |}.

(** A client whose entry is rubbish. *)
Definition corrupt_client : @world strict_externals :=
  World (session_cookie "s1") ∅ ∅ ∅ None
        {["s1" := @Record_ strict_externals None (Some 100)]} [] 0.

(** A client with two names in the session, and another client. *)
Definition two_clients : @world sample_externals :=
  World (session_cookie "s1") ∅ ∅ ∅ None
        {["s1" := @Record_ sample_externals {["a" := PyInt 1; "n" := PyNone]} (Some 100);
          "s2" := @Record_ sample_externals {["b" := PyInt 2]} (Some 50)]} [] 0.

(** The same, seen by a manager that has its client. *)
Definition two_clients_settled : @world sample_externals :=
  with_dataset (Some (Redis {["db" := PyInt 0]})) two_clients.

Lemma sample_uuid4_inj (n m : nat) :
  @uuid4 sample_externals n = @uuid4 sample_externals m → n = m.
Proof.
  cbn. intros E. apply (inj pretty). by simplify_eq.
Qed.

Lemma failed_call_writes_nothing_witness :
  (call (Delete ["a"; "a"]) two_clients).1 = Raise (KeyError "a") ∧
  server (call (Delete ["a"; "a"]) two_clients).2 = server two_clients ∧
  redis_log (call (Delete ["a"; "a"]) two_clients).2
  = redis_log two_clients ++ [GET (resolved two_clients)].
Proof.
  assert ((call (Delete ["a"; "a"]) two_clients).1 = Raise (KeyError "a")) as Hr
    by (vm_compute; reflexivity).
  split; [exact Hr |].
  exact (failed_call_writes_nothing (Delete ["a"; "a"]) (KeyError "a") two_clients Hr).
Defined.

Lemma corrupt_session_stays_witness :
  request_cookies corrupt_client !! SessionManager.SESSION_ID_NAME = Some "s1" ∧
  stored_session corrupt_client "s1" = None ∧
  (calls [Get "a" PyNone; Set_ "a" (PyInt 1); Delete ["a"]; Keys] corrupt_client).1
  = replicate 4 (Raise UnpicklingError) ∧
  server (calls [Get "a" PyNone; Set_ "a" (PyInt 1); Delete ["a"]; Keys]
                corrupt_client).2
  = server corrupt_client.
Proof.
  split; [reflexivity |]. split; [reflexivity |].
  exact (corrupt_session_stays
           [Get "a" PyNone; Set_ "a" (PyInt 1); Delete ["a"]; Keys]
           "s1" corrupt_client eq_refl eq_refl).
Defined.

Lemma other_sessions_untouched_witness :
  request_cookies two_clients !! SessionManager.SESSION_ID_NAME = Some "s1" ∧
  "s2" ≠ "s1" ∧
  server (calls [Set_ "b" (PyInt 9); Delete ["a"]; Keys] two_clients).2 !! "s2"
  = server two_clients !! "s2".
Proof.
  assert ("s2" ≠ "s1") as Hne by discriminate.
  split; [reflexivity |]. split; [exact Hne |].
  exact (other_sessions_untouched [Set_ "b" (PyInt 9); Delete ["a"]; Keys]
           "s1" "s2" two_clients eq_refl Hne).
Defined.

Lemma settled_manager_touches_redis_only_witness :
  request_cookies two_clients_settled !! SessionManager.SESSION_ID_NAME = Some "s1" ∧
  dataset two_clients_settled = Some (Redis {["db" := PyInt 0]}) ∧
  settings (calls [Set_ "b" (PyInt 9); Get "a" PyNone] two_clients_settled).2
  = settings two_clients_settled ∧
  heap (calls [Set_ "b" (PyInt 9); Get "a" PyNone] two_clients_settled).2
  = heap two_clients_settled ∧
  dataset (calls [Set_ "b" (PyInt 9); Get "a" PyNone] two_clients_settled).2
  = Some (Redis {["db" := PyInt 0]}) ∧
  response_cookies (calls [Set_ "b" (PyInt 9); Get "a" PyNone] two_clients_settled).2
  = response_cookies two_clients_settled ∧
  uuids_drawn (calls [Set_ "b" (PyInt 9); Get "a" PyNone] two_clients_settled).2
  = uuids_drawn two_clients_settled.
Proof.
  split; [reflexivity |]. split; [reflexivity |].
  exact (settled_manager_touches_redis_only [Set_ "b" (PyInt 9); Get "a" PyNone]
           "s1" (Redis {["db" := PyInt 0]}) two_clients_settled eq_refl eq_refl).
Defined.

Lemma reads_agree_witness :
  request_cookies two_clients !! SessionManager.SESSION_ID_NAME = Some "s1" ∧
  stored_session two_clients "s1" = Some {["a" := PyInt 1; "n" := PyNone]} ∧
  ∃ b ks v r,
    (calls [Contains "n"; Keys; Get "n" (PyInt 5); Getitem "n"] two_clients).1
    = [Ok (Truth b); Ok (Names ks); Ok (Value v); r] ∧
    NoDup ks ∧
    (b = true ↔ "n" ∈ ks) ∧
    (b = false →
     v = PyInt 5 ∧ r = Raise (KeyError ("n" +:+ " not found in dataset"))) ∧
    (b = true →
     r = if is_None v
         then Raise (KeyError ("n" +:+ " not found in dataset"))
         else Ok (Value v)).
Proof.
  split; [reflexivity |]. split; [reflexivity |].
  exact (reads_agree "n" (PyInt 5) "s1" {["a" := PyInt 1; "n" := PyNone]}
           two_clients eq_refl eq_refl).
Defined.

Lemma set_changes_one_name_witness :
  (∀ d, @pickle_loads sample_externals (pickle_dumps d) = Some d) ∧
  request_cookies two_clients !! SessionManager.SESSION_ID_NAME = Some "s1" ∧
  stored_session two_clients "s1" = Some {["a" := PyInt 1; "n" := PyNone]} ∧
  "a" ≠ "c" ∧
  ∃ w',
    call (Set_ "c" (PyInt 3)) two_clients = (Ok Done, w') ∧
    (call (Contains "c") w').1 = Ok (Truth true) ∧
    (call (Get "a" PyNone) w').1 = (call (Get "a" PyNone) two_clients).1 ∧
    (call (Contains "a") w').1 = (call (Contains "a") two_clients).1.
Proof.
  assert (∀ d, @pickle_loads sample_externals (pickle_dumps d) = Some d) as Hp
    by (intros d; reflexivity).
  assert ("a" ≠ "c") as Hne by discriminate.
  split; [exact Hp |]. split; [reflexivity |]. split; [reflexivity |].
  split; [exact Hne |].
  exact (set_changes_one_name (H := sample_externals) Hp "c" "a" (PyInt 3) PyNone
           "s1" {["a" := PyInt 1; "n" := PyNone]} two_clients eq_refl eq_refl Hne).
Defined.

Lemma delete_of_distinct_names_witness :
  (∀ d, @pickle_loads sample_externals (pickle_dumps d) = Some d) ∧
  request_cookies two_clients !! SessionManager.SESSION_ID_NAME = Some "s1" ∧
  stored_session two_clients "s1" = Some {["a" := PyInt 1; "n" := PyNone]} ∧
  NoDup ["a"; "zz"] ∧
  ∃ w' session',
    call (Delete ["a"; "zz"]) two_clients = (Ok Done, w') ∧
    server w' !! "s1"
    = Some (Record_ (@pickle_dumps sample_externals session')
                    (Some SessionManager.EXPIRE_SECONDS)) ∧
    redis_log w'
    = redis_log two_clients
      ++ [GET "s1"; SET "s1" (@pickle_dumps sample_externals session');
          EXPIRE "s1" SessionManager.EXPIRE_SECONDS] ∧
    (call (Get "a" (PyInt 7)) w').1
    = (if decide ("a" ∈ ["a"; "zz"]) then Ok (Value (PyInt 7))
       else (call (Get "a" (PyInt 7)) two_clients).1) ∧
    (call (Contains "a") w').1
    = (if decide ("a" ∈ ["a"; "zz"]) then Ok (Truth false)
       else (call (Contains "a") two_clients).1).
Proof.
  assert (∀ d, @pickle_loads sample_externals (pickle_dumps d) = Some d) as Hp
    by (intros d; reflexivity).
  assert (NoDup ["a"; "zz"]) as Hnd
    by (apply (bool_decide_unpack _); vm_compute; exact I).
  split; [exact Hp |]. split; [reflexivity |]. split; [reflexivity |].
  split; [exact Hnd |].
  exact (delete_of_distinct_names (H := sample_externals) Hp ["a"; "zz"] "a" (PyInt 7)
           "s1" {["a" := PyInt 1; "n" := PyNone]} two_clients eq_refl eq_refl Hnd).
Defined.

Lemma first_visit_keeps_last_write_witness :
  (∀ d, @pickle_loads sample_externals (pickle_dumps d) = Some d) ∧
  (∀ n m, @uuid4 sample_externals n = @uuid4 sample_externals m → n = m) ∧
  request_cookies blank_world !! SessionManager.SESSION_ID_NAME = None ∧
  (∀ n, (uuids_drawn blank_world ≤ n)%nat →
        server blank_world !! @uuid4 sample_externals n = None) ∧
  ∃ w' session_id kwargs,
    calls (uncurry Set_ <$> ([("a", PyInt 1)] ++ [("b", PyInt 2)])) blank_world
    = (replicate (length ([("a", PyInt 1)] ++ [("b", PyInt 2)])) (Ok Done), w') ∧
    response_cookies w' !! SessionManager.SESSION_ID_NAME = Some (session_id, kwargs) ∧
    (call (Get "a" PyNone) (new_request (session_cookie session_id) w')).1
    = Ok (Value (if decide ("a" = "b") then PyInt 2 else PyNone)).
Proof.
  assert (∀ d, @pickle_loads sample_externals (pickle_dumps d) = Some d) as Hp
    by (intros d; reflexivity).
  assert (∀ n, (uuids_drawn blank_world ≤ n)%nat →
               server blank_world !! @uuid4 sample_externals n = None) as Hnew
    by (intros n _; reflexivity).
  split; [exact Hp |]. split; [exact sample_uuid4_inj |]. split; [reflexivity |].
  split; [exact Hnew |].
  exact (first_visit_keeps_last_write (H := sample_externals) Hp sample_uuid4_inj
           [("a", PyInt 1)] "b" (PyInt 2) "a" PyNone blank_world eq_refl Hnew).
Defined.

Lemma minted_cookie_attributes_witness :
  request_cookies (configured_world ∅) !! SessionManager.SESSION_ID_NAME = None ∧
  ∃ w' kwargs,
    SessionManager.__get_session_id (configured_world ∅)
    = (Ok (@uuid4 sample_externals (uuids_drawn (configured_world ∅))), w') ∧
    response_cookies w'
    = <[SessionManager.SESSION_ID_NAME :=
          (@uuid4 sample_externals (uuids_drawn (configured_world ∅)), kwargs)]>
        (response_cookies (configured_world ∅)) ∧
    kwargs !! "expires"
    = Some (dict_get (configured "pycket_cookies" (configured_world ∅))
                     "expires" PyNone) ∧
    kwargs !! "expires_days"
    = Some (dict_get (configured "pycket_cookies" (configured_world ∅))
                     "expires_days" PyNone) ∧
    ∀ k, k ∉ ["expires"; "expires_days"] →
         kwargs !! k = configured "pycket_cookies" (configured_world ∅) !! k.
Proof.
  split; [reflexivity |].
  exact (minted_cookie_attributes (configured_world ∅) eq_refl).
Defined.

Lemma managers_connect_alike_witness :
  dataset (configured_world ∅) = None ∧
  dataset (SessionManager.__setup_dataset
             (new_request (session_cookie "s1")
                (SessionManager.__setup_dataset (configured_world ∅)).2)).2
  = dataset (SessionManager.__setup_dataset (configured_world ∅)).2 ∧
  is_Some (dataset (SessionManager.__setup_dataset (configured_world ∅)).2).
Proof.
  split; [reflexivity |].
  exact (managers_connect_alike (session_cookie "s1") (configured_world ∅) eq_refl).
Defined.

Lemma session_is_one_manager_witness :
  attributes (Handler (A := option redis_client) ∅ ∅) !! "__session_manager" = None ∧
  ∃ self' m,
    session_calls (Set_ "a" (PyInt 1) :: [Get "a" PyNone]) (Handler ∅ ∅) two_clients
    = (Some <$> (calls (Set_ "a" (PyInt 1) :: [Get "a" PyNone])
                       (with_dataset None two_clients)).1,
       self',
       (calls (Set_ "a" (PyInt 1) :: [Get "a" PyNone])
              (with_dataset None two_clients)).2) ∧
    attributes self' !! "__session_manager" = Some m ∧
    objects self' !! m
    = Some (dataset (calls (Set_ "a" (PyInt 1) :: [Get "a" PyNone])
                           (with_dataset None two_clients)).2).
Proof.
  split; [reflexivity |].
  exact (session_is_one_manager (Set_ "a" (PyInt 1)) [Get "a" PyNone]
           (Handler ∅ ∅) two_clients eq_refl).
Defined.

Lemma getitem_raises_exactly_witness :
  loaded two_clients = Ok {["a" := PyInt 1; "n" := PyNone]} ∧
  ((call (Getitem "n") two_clients).1
   = Raise (KeyError ("n" +:+ " not found in dataset"))
   ↔ ({["a" := PyInt 1; "n" := PyNone]} : dict) !! "n" = None
     ∨ ({["a" := PyInt 1; "n" := PyNone]} : dict) !! "n" = Some PyNone) ∧
  ((call (Getitem "n") two_clients).1 = Ok (Value (PyInt 1))
   ↔ ({["a" := PyInt 1; "n" := PyNone]} : dict) !! "n" = Some (PyInt 1)
     ∧ PyInt 1 ≠ PyNone).
Proof.
  split; [reflexivity |].
  exact (getitem_raises_exactly "n" (PyInt 1) {["a" := PyInt 1; "n" := PyNone]}
           two_clients eq_refl).
Defined.
